(** * Package ptime: the Persian (Solar Hijri) calendar of go-persian-calendar

    A shallow embedding of [src/ptime/ptime.go] and the properties of its
    specification that were checked against it.

    Layout:
    - [GoInt]:  Go's [int] on 64-bit targets, as [Z] with two's-complement
                wrap-around;
    - [result]: a panic monad for the fallible paths;
    - [gotime]: the part of Go's standard package [time] the code calls;
    - [ptime]:  the package itself, function by function;
    - the properties, one section per specification item. *)

From Stdlib Require Import ZArith Lia List Bool String.
Import ListNotations.

Local Open Scope Z_scope.
Local Open Scope bool_scope.

(* ================================================================== *)
(** ** Go's [int] *)
(* ================================================================== *)

(** On amd64 and arm64 an [int] has 64 bits.  A value is a [Z] in
    [[min_int, max_int]]; [+], [-] and [*] wrap around silently, [/]
    truncates toward zero and [%] takes the sign of the dividend.  Go panics
    on a zero divisor: every divisor in the embedded code is a non-zero
    literal, apart from the parameter [den] of [divider], which its only
    caller sets to 33. *)
Declare Scope go_scope.
Delimit Scope go_scope with go.

Module GoInt.

Definition min_int : Z := Eval cbv in - 2 ^ 63.
Definition max_int : Z := Eval cbv in 2 ^ 63 - 1.

Definition in_int (z : Z) : Prop := min_int <= z <= max_int.

(** The value already fits in the common case; otherwise it is reduced
    modulo [2^64] into the signed range. *)
Definition wrap (z : Z) : Z :=
  if (min_int <=? z) && (z <=? max_int) then z
  else (z + 9223372036854775808) mod 18446744073709551616
       - 9223372036854775808.

Definition add (a b : Z) : Z := wrap (a + b).
Definition sub (a b : Z) : Z := wrap (a - b).
Definition mul (a b : Z) : Z := wrap (a * b).
Definition quo (a b : Z) : Z := wrap (Z.quot a b).
Definition rem (a b : Z) : Z := Z.rem a b.

End GoInt.

(** Inside [( ... )%go] the operators are Go's, at every depth. *)
Arguments GoInt.add (a b)%_go.
Arguments GoInt.sub (a b)%_go.
Arguments GoInt.mul (a b)%_go.
Arguments GoInt.quo (a b)%_go.
Arguments GoInt.rem (a b)%_go.

Infix "+" := GoInt.add : go_scope.
Infix "-" := GoInt.sub : go_scope.
Infix "*" := GoInt.mul : go_scope.
Infix "/" := GoInt.quo : go_scope.
Infix "%%" := GoInt.rem (at level 40, left associativity) : go_scope.

(* ================================================================== *)
(** ** Panics *)
(* ================================================================== *)

Inductive result (A : Type) : Type :=
| Ok (a : A)
| Panic (msg : string).

Arguments Ok {A} a.
Arguments Panic {A} msg.

Definition bind {A B : Type} (r : result A) (k : A -> result B) : result B :=
  match r with
  | Ok a => k a
  | Panic msg => Panic msg
  end.

Notation "x <- e ;; k" := (bind e (fun x => k))
  (at level 61, e at next level, right associativity).

Definition is_panic {A : Type} (r : result A) : Prop :=
  exists msg, r = Panic msg.

(** [s[i]] on a Go array: an index outside the array panics. *)
Definition index {A : Type} (l : list A) (i : Z) : result A :=
  if i <? 0 then Panic "index out of range"
  else match nth_error l (Z.to_nat i) with
       | Some x => Ok x
       | None => Panic "index out of range"
       end.

(* ================================================================== *)
(** ** The host package [time] *)
(* ================================================================== *)

(** The standard library is not part of the repository.  What the code
    uses of it is modelled here: an instant is a count of seconds and
    nanoseconds since 1970-01-01T00:00:00Z seen from a location; locations
    are fixed offsets (as [Iran] and [Afghanistan] are); the civil calendar
    is the proleptic Gregorian one.  Host values live in [Z]. *)
Module gotime.

Record Location : Type := FixedZone { zone_name : string; zone_offset : Z }.

Definition UTC : Location := FixedZone "UTC" 0.

Record Time : Type := mkTime {
  unix_sec : Z;         (* seconds since the epoch, UTC *)
  nanos : Z;            (* in [0, 999999999] *)
  loc : Location
}.

(** time.Weekday *)
Definition Sunday : Z := 0.
Definition Monday : Z := 1.
Definition Tuesday : Z := 2.
Definition Wednesday : Z := 3.
Definition Thursday : Z := 4.
Definition Friday : Z := 5.
Definition Saturday : Z := 6.

Definition isLeap (y : Z) : bool :=
  (y mod 4 =? 0) && (negb (y mod 100 =? 0) || (y mod 400 =? 0)).

Definition daysBefore : list Z :=
  [0; 31; 59; 90; 120; 151; 181; 212; 243; 273; 304; 334].

(** Days from 1970-01-01 to the given civil day; [m] in [1..12], [d]
    unrestricted (day 32 of a month is the day after day 31). *)
Definition days_from_civil (y m d : Z) : Z :=
  let p := y - 1 in
  365 * p + p / 4 - p / 100 + p / 400
  + nth (Z.to_nat (m - 1)) daysBefore 0
  + (if isLeap y && (3 <=? m) then 1 else 0)
  + (d - 1) - 719162.

(** The civil day of a day count. *)
Definition civil_from_days (z : Z) : Z * Z * Z :=
  let z := z + 719468 in
  let era := z / 146097 in
  let doe := z - era * 146097 in
  let yoe := (doe - doe / 1460 + doe / 36524 - doe / 146096) / 365 in
  let doy := doe - (365 * yoe + yoe / 4 - yoe / 100) in
  let mp := (5 * doy + 2) / 153 in
  let d := doy - (153 * mp + 2) / 5 + 1 in
  let m := if mp <? 10 then mp + 3 else mp - 9 in
  let y := yoe + era * 400 + (if m <=? 2 then 1 else 0) in
  (y, m, d).

(** The carry of time.Date: [lo] is brought into [[0, base)]. *)
Definition norm (hi lo base : Z) : Z * Z := (hi + lo / base, lo mod base).

(** time.Date; panics on a nil location. *)
Definition Date (year month day hour min sec nsec : Z)
    (l : option Location) : result Time :=
  match l with
  | None => Panic "time: missing Location in call to Date"
  | Some l =>
      let '(year, m) := norm year (month - 1) 12 in
      let month := m + 1 in
      let '(sec, nsec) := norm sec nsec 1000000000 in
      let '(min, sec) := norm min sec 60 in
      let '(hour, min) := norm hour min 60 in
      let '(day, hour) := norm day hour 24 in
      let d := days_from_civil year month day in
      Ok (mkTime (d * 86400 + hour * 3600 + min * 60 + sec - zone_offset l)
                 nsec l)
  end.

(** time.Unix *)
Definition Unix (sec nsec : Z) : Time :=
  let '(sec, nsec) := norm sec nsec 1000000000 in
  mkTime sec nsec UTC.

(** Time.In; panics on a nil location. *)
Definition In (t : Time) (l : option Location) : result Time :=
  match l with
  | None => Panic "time: missing Location in call to Time.In"
  | Some l => Ok (mkTime (unix_sec t) (nanos t) l)
  end.

Definition local_sec (t : Time) : Z := unix_sec t + zone_offset (loc t).
Definition local_day (t : Time) : Z := local_sec t / 86400.

Definition YMD (t : Time) : Z * Z * Z := civil_from_days (local_day t).
Definition Hour (t : Time) : Z := (local_sec t mod 86400) / 3600.
Definition Minute (t : Time) : Z := (local_sec t mod 3600) / 60.
Definition Second (t : Time) : Z := local_sec t mod 60.
Definition Nanosecond (t : Time) : Z := nanos t.
Definition Location_of (t : Time) : Location := loc t.

(** 1970-01-01 was a Thursday. *)
Definition Weekday (t : Time) : Z := (local_day t + Thursday) mod 7.

(** Time.Unix *)
Definition UnixSec (t : Time) : Z := unix_sec t.

(** Time.Zone, for a fixed zone *)
Definition Zone (t : Time) : string * Z :=
  (zone_name (loc t), zone_offset (loc t)).

(** Time.AddDate: the civil date moved by the given amounts and handed
    to [Date], which normalises it. *)
Definition AddDate (t : Time) (years months days : Z) : result Time :=
  let '(y, m, d) := YMD t in
  Date (y + years) (m + months) (d + days)
       (Hour t) (Minute t) (Second t) (Nanosecond t) (Some (loc t)).

(** Time.Add, with the duration in nanoseconds *)
Definition Add (t : Time) (d : Z) : Time :=
  let '(sec, nsec) := norm (unix_sec t) (nanos t + d) 1000000000 in
  mkTime sec nsec (loc t).

End gotime.

(* ================================================================== *)
(** ** Package ptime *)
(* ================================================================== *)

Module ptime.

Import GoInt.

(** type Time struct; [loc] is a pointer and may be nil. *)
Record Time : Type := mkTime {
  year : Z;
  month : Z;
  day : Z;
  hour : Z;
  min : Z;
  sec : Z;
  nsec : Z;
  loc : option gotime.Location;
  wday : Z
}.

(** The zero value [Time{}]. *)
Definition zero : Time := mkTime 0 0 0 0 0 0 0 None 0.

(** Months *)
Definition Farvardin : Z := 1.
Definition Esfand : Z := 12.

(** Weekdays *)
Definition Shanbe : Z := 0.
Definition Yekshanbe : Z := 1.
Definition Doshanbe : Z := 2.
Definition Seshanbe : Z := 3.
Definition Charshanbe : Z := 4.
Definition Panjshanbe : Z := 5.
Definition Jomeh : Z := 6.

(** 12-hour markers *)
Definition AM : Z := 0.
Definition PM : Z := 1.

Definition Iran : gotime.Location := gotime.FixedZone "Asia/Tehran" 12600.
Definition Afghanistan : gotime.Location := gotime.FixedZone "Asia/Kabul" 16200.

(** {days, leap_days, days_before_start} *)
Definition p_month_count : list (list Z) :=
  [ [31; 31; 0];
    [31; 31; 31];
    [31; 31; 62];
    [31; 31; 93];
    [31; 31; 124];
    [31; 31; 155];
    [30; 30; 186];
    [30; 30; 216];
    [30; 30; 246];
    [30; 30; 276];
    [30; 30; 306];
    [29; 30; 336] ].

(** func divider(num, den int) int *)
Definition divider (num den : Z) : Z :=
  if 0 <? num then (num %% den)%go
  else (num - ((((num + 1) / den) - 1) * den))%go.

(** func (t Time) IsLeap() bool *)
Definition IsLeap (t : Time) : bool :=
  divider (25 * year t + 11)%go 33 <? 8.

(** func getJdn(year, month, day int) int *)
Definition getJdn (year month day : Z) : Z :=
  let base := (year - 473)%go in
  let base := if 0 <=? year then (base - 1)%go else base in
  let epy := (474 + (base %% 2820))%go in
  let md := if month <=? 7 then ((month - 1) * 31)%go
            else ((month - 1) * 30 + 6)%go in
  (day + md + (epy * 682 - 110) / 2816 + (epy - 1) * 365
   + base / 2820 * 1029983 + 1948320)%go.

(** func getWeekday(wd time.Weekday) Weekday *)
Definition getWeekday (wd : Z) : Z :=
  if wd =? gotime.Saturday then Shanbe
  else if wd =? gotime.Sunday then Yekshanbe
  else if wd =? gotime.Monday then Doshanbe
  else if wd =? gotime.Tuesday then Seshanbe
  else if wd =? gotime.Wednesday then Charshanbe
  else if wd =? gotime.Thursday then Panjshanbe
  else if wd =? gotime.Friday then Jomeh
  else 0.

(** The body of [Time.Time()] between the call of [getJdn] and the call
    of [time.Date] (lines 220-242): the Julian Day Number back to a
    Gregorian or Julian civil date. *)
Definition Time_ymd (jdn : Z) : Z * Z * Z :=
  if 2299160 <? jdn then
    let l := (jdn + 68569)%go in
    let n := (4 * l / 146097)%go in
    let l := (l - (146097 * n + 3) / 4)%go in
    let i := (4000 * (l + 1) / 1461001)%go in
    let l := (l - 1461 * i / 4 + 31)%go in
    let j := (80 * l / 2447)%go in
    let day := (l - 2447 * j / 80)%go in
    let l := (j / 11)%go in
    let month := (j + 2 - 12 * l)%go in
    let year := (100 * (n - 49) + i + l)%go in
    (year, month, day)
  else
    let j := (jdn + 1402)%go in
    let k := ((j - 1) / 1461)%go in
    let l := (j - 1461 * k)%go in
    let n := ((l - 1) / 365 - l / 1461)%go in
    let i := (l - 365 * n + 30)%go in
    let j := (80 * i / 2447)%go in
    let day := (i - 2447 * j / 80)%go in
    let i := (j / 11)%go in
    let month := (j + 2 - 12 * i)%go in
    let year := (4 * k + n + i - 4716)%go in
    (year, month, day).

(** func (t Time) Time() time.Time *)
Definition ToTime (t : Time) : result gotime.Time :=
  let jdn := getJdn (year t) (month t) (day t) in
  let '(y, m, d) := Time_ymd jdn in
  gotime.Date y m d (hour t) (min t) (sec t) (nsec t) (loc t).

(** Lines 294-301 of [SetTime]: the civil date of the host to its Julian
    Day Number. *)
Definition SetTime_jdn (gy gm gd : Z) : Z :=
  if (1582 <? gy) || ((gy =? 1582) && (10 <? gm))
     || ((gy =? 1582) && (gm =? 10) && (14 <? gd))
  then (((1461 * (gy + 4800 + ((gm - 14) / 12))) / 4)
        + ((367 * (gm - 2 - 12 * ((gm - 14) / 12))) / 12)
        - ((3 * ((gy + 4900 + ((gm - 14) / 12)) / 100)) / 4)
        + gd - 32075)%go
  else (367 * gy - ((7 * (gy + 5001 + ((gm - 9) / 7))) / 4)
        + ((275 * gm) / 9) + gd + 1729777)%go.

(** [int(math.Ceil(x / d))] for an integer-valued float64 [x] and a
    literal [d]: the conversion of an [int] below [2^53] in magnitude to
    float64 is exact, and the correctly rounded quotient has the ceiling
    of the exact one, so the result is the integer ceiling. *)
Definition ceil_div (x d : Z) : Z := - ((- x) / d).

(** Lines 303-327 of [SetTime]: the Julian Day Number to the Persian
    year, month and day. *)
Definition SetTime_ymd (jdn : Z) : Z * Z * Z :=
  let dep := (jdn - getJdn 475 1 1)%go in
  let cyc := (dep / 1029983)%go in
  let rem := (dep %% 1029983)%go in
  let ycyc :=
    if rem =? 1029982 then 2820
    else
      let a := (rem / 366)%go in
      ((2134 * a + 2816 * (rem %% 366) + 2815) / 1028522 + a + 1)%go in
  let year := (ycyc + 2820 * cyc + 474)%go in
  let year := if year <=? 0 then (year - 1)%go else year in
  let dy := (jdn - getJdn year 1 1 + 1)%go in
  let month := if dy <=? 186 then ceil_div dy 31
               else ceil_div (dy - 6) 30 in
  let day := (jdn - getJdn year month 1 + 1)%go in
  (year, month, day).

(** func (pt *Time) SetTime(t time.Time); the receiver's fields are all
    overwritten. *)
Definition SetTime (pt : Time) (t : gotime.Time) : Time :=
  let '(gy, gm, gd) := gotime.YMD t in
  let jdn := SetTime_jdn gy gm gd in
  let '(year, month, day) := SetTime_ymd jdn in
  mkTime year month day
         (gotime.Hour t) (gotime.Minute t) (gotime.Second t)
         (gotime.Nanosecond t)
         (Some (gotime.Location_of t))
         (getWeekday (gotime.Weekday t)).

(** func Time(t time.Time) Time *)
Definition FromTime (t : gotime.Time) : Time := SetTime zero t.

(** func (t *Time) resetWeekday() *)
Definition resetWeekday (t : Time) : result Time :=
  g <- ToTime t ;;
  Ok (mkTime (year t) (month t) (day t) (hour t) (min t) (sec t) (nsec t)
             (loc t) (getWeekday (gotime.Weekday g))).

(** func between(value *int, min, max int), on the value pointed to *)
Definition between (value min max : Z) : Z :=
  if value <? min then min
  else if max <? value then max
  else value.

Definition norm_nanosecond (t : Time) : Time :=
  mkTime (year t) (month t) (day t) (hour t) (min t) (sec t)
         (between (nsec t) 0 999999999) (loc t) (wday t).

Definition norm_second (t : Time) : Time :=
  mkTime (year t) (month t) (day t) (hour t) (min t)
         (between (sec t) 0 59) (nsec t) (loc t) (wday t).

Definition norm_minute (t : Time) : Time :=
  mkTime (year t) (month t) (day t) (hour t)
         (between (min t) 0 59) (sec t) (nsec t) (loc t) (wday t).

Definition norm_hour (t : Time) : Time :=
  mkTime (year t) (month t) (day t)
         (between (hour t) 0 23) (min t) (sec t) (nsec t) (loc t) (wday t).

Definition norm_month (t : Time) : Time :=
  mkTime (year t) (between (month t) 1 12) (day t)
         (hour t) (min t) (sec t) (nsec t) (loc t) (wday t).

(** func norm_day(t *Time); the table look-up panics when the month is
    outside [1..12]. *)
Definition norm_day (t : Time) : result Time :=
  let i := if IsLeap t then 1 else 0 in
  row <- index p_month_count (month t - 1)%go ;;
  last <- index row i ;;
  Ok (mkTime (year t) (month t) (between (day t) 1 last)
             (hour t) (min t) (sec t) (nsec t) (loc t) (wday t)).

(** func (t *Time) norm() *)
Definition norm (t : Time) : result Time :=
  norm_day (norm_month (norm_hour (norm_minute (norm_second
    (norm_nanosecond t))))).

(** func (t *Time) Set(year, month, day, hour, min, sec, nsec, loc); [Set]
    is a reserved word here. *)
Definition Set_ (t : Time) (year month day hour min sec nsec : Z)
    (loc : option gotime.Location) : result Time :=
  match loc with
  | None => Panic "ptime: the Location must not be nil in call to Change"
  | Some _ =>
      t <- resetWeekday
             (mkTime year month day hour min sec nsec loc (wday t)) ;;
      norm t
  end.

(** func Date(year, month, day, hour, min, sec, nsec, loc) Time *)
Definition Date (year month day hour min sec nsec : Z)
    (loc : option gotime.Location) : result Time :=
  match loc with
  | None => Panic "ptime: the Location must not be nil in call to Date"
  | Some _ => Set_ zero year month day hour min sec nsec loc
  end.

(** func Unix(sec, nsec int64, loc *time.Location) Time *)
Definition Unix (sec nsec : Z) (loc : option gotime.Location) : result Time :=
  match loc with
  | None => Panic "ptime: the Location must not be nil in call to Unix"
  | Some _ =>
      g <- gotime.In (gotime.Unix sec nsec) loc ;;
      Ok (FromTime g)
  end.

(** func Now(loc *time.Location) Time; [clock] is the reading of
    [time.Now()]. *)
Definition Now (clock : gotime.Time) (loc : option gotime.Location)
    : result Time :=
  match loc with
  | None => Panic "ptime: the Location must not be nil in call to Now"
  | Some _ =>
      g <- gotime.In clock loc ;;
      Ok (FromTime g)
  end.

(** func (t *Time) SetUnix(sec, nsec int64, loc *time.Location) *)
Definition SetUnix (t : Time) (sec nsec : Z) (loc : option gotime.Location)
    : result Time :=
  match loc with
  | None => Panic "ptime: the Location must not be nil in call to SetUnix"
  | Some _ =>
      g <- gotime.In (gotime.Unix sec nsec) loc ;;
      Ok (SetTime t g)
  end.

(** func (t *Time) SetYear(year int) *)
Definition SetYear (t : Time) (year : Z) : result Time :=
  t <- norm_day (mkTime year (month t) (day t) (hour t) (min t) (sec t)
                        (nsec t) (loc t) (wday t)) ;;
  resetWeekday t.

(** func (t *Time) SetMonth(month Month) *)
Definition SetMonth (t : Time) (month : Z) : result Time :=
  t <- norm_day (norm_month
         (mkTime (year t) month (day t) (hour t) (min t) (sec t)
                 (nsec t) (loc t) (wday t))) ;;
  resetWeekday t.

(** func (t *Time) SetDay(day int) *)
Definition SetDay (t : Time) (day : Z) : result Time :=
  t <- norm_day (mkTime (year t) (month t) day (hour t) (min t) (sec t)
                        (nsec t) (loc t) (wday t)) ;;
  resetWeekday t.

(** func (t *Time) SetHour(hour int) *)
Definition SetHour (t : Time) (hour : Z) : Time :=
  norm_hour (mkTime (year t) (month t) (day t) hour (min t) (sec t)
                    (nsec t) (loc t) (wday t)).

(** func (t *Time) SetMinute(min int) *)
Definition SetMinute (t : Time) (min : Z) : Time :=
  norm_minute (mkTime (year t) (month t) (day t) (hour t) min (sec t)
                      (nsec t) (loc t) (wday t)).

(** func (t *Time) SetSecond(sec int) *)
Definition SetSecond (t : Time) (sec : Z) : Time :=
  norm_second (mkTime (year t) (month t) (day t) (hour t) (min t) sec
                      (nsec t) (loc t) (wday t)).

(** func (t *Time) SetNanosecond(nsec int) *)
Definition SetNanosecond (t : Time) (nsec : Z) : Time :=
  norm_nanosecond (mkTime (year t) (month t) (day t) (hour t) (min t)
                          (sec t) nsec (loc t) (wday t)).

(** func (t *Time) In(loc *time.Location) *)
Definition In (t : Time) (loc : option gotime.Location) : result Time :=
  match loc with
  | None => Panic "ptime: the Location must not be nil in call to In"
  | Some _ =>
      resetWeekday (mkTime (year t) (month t) (day t) (hour t) (min t)
                           (sec t) (nsec t) loc (wday t))
  end.

(** func (t *Time) At(hour, min, sec, nsec int) *)
Definition At (t : Time) (hour min sec nsec : Z) : Time :=
  norm_nanosecond (norm_second (norm_minute (norm_hour
    (mkTime (year t) (month t) (day t) hour min sec nsec
            (loc t) (wday t))))).

(** func (t Time) Hour12() int *)
Definition Hour12 (t : Time) : Z :=
  let h := hour t in
  if 12 <=? h then (h - 12)%go else h.

(** func (t Time) AmPm() AM_PM *)
Definition AmPm (t : Time) : Z :=
  if (12 <? hour t) || ((hour t =? 12) && ((0 <? min t) || (0 <? sec t)))
  then PM else AM.

(** func modifyHour(value, max int) int *)
Definition modifyHour (value max : Z) : Z :=
  if value =? 0 then max else value.

(** func (t Time) Unix() int64 *)
Definition Time_Unix (t : Time) : result Z :=
  g <- ToTime t ;;
  Ok (gotime.UnixSec g).

(** func (t Time) YearDay() int *)
Definition YearDay (t : Time) : result Z :=
  row <- index p_month_count (month t - 1)%go ;;
  before <- index row 2 ;;
  Ok (before + day t)%go.

(** func (t Time) RYearDay() int *)
Definition RYearDay (t : Time) : result Z :=
  let y := 365 in
  let y := if IsLeap t then (y + 1)%go else y in
  yd <- YearDay t ;;
  Ok (y - yd)%go.

(** func (t Time) RMonthDay() int *)
Definition RMonthDay (t : Time) : result Z :=
  let i := if IsLeap t then 1 else 0 in
  row <- index p_month_count (month t - 1)%go ;;
  last <- index row i ;;
  Ok (last - day t)%go.

(** func (t Time) FirstMonthDay() Time *)
Definition FirstMonthDay (t : Time) : result Time :=
  if day t =? 1 then Ok t
  else Date (year t) (month t) 1 (hour t) (min t) (sec t) (nsec t) (loc t).

(** func (t Time) LastMonthDay() Time *)
Definition LastMonthDay (t : Time) : result Time :=
  let i := if IsLeap t then 1 else 0 in
  row <- index p_month_count (month t - 1)%go ;;
  ld <- index row i ;;
  if ld =? day t then Ok t
  else Date (year t) (month t) ld (hour t) (min t) (sec t) (nsec t) (loc t).

(** func (t Time) FirstYearDay() Time *)
Definition FirstYearDay (t : Time) : result Time :=
  if (month t =? Farvardin) && (day t =? 1) then Ok t
  else Date (year t) Farvardin 1 (hour t) (min t) (sec t) (nsec t) (loc t).

(** func (t Time) LastYearDay() Time *)
Definition LastYearDay (t : Time) : result Time :=
  let i := if IsLeap t then 1 else 0 in
  row <- index p_month_count (Esfand - 1)%go ;;
  ld <- index row i ;;
  if (month t =? Esfand) && (day t =? ld) then Ok t
  else Date (year t) Esfand ld (hour t) (min t) (sec t) (nsec t) (loc t).

(** func (t Time) MonthWeek() int *)
Definition MonthWeek (t : Time) : Z := (day t / 7)%go.

(** func (t Time) RMonthWeek() int *)
Definition RMonthWeek (t : Time) : result Z :=
  r <- RMonthDay t ;;
  Ok (r / 7)%go.

(** func (t Time) YearWeek() int *)
Definition YearWeek (t : Time) : result Z :=
  yd <- YearDay t ;;
  Ok (yd / 7)%go.

(** func (t Time) RYearWeek() int *)
Definition RYearWeek (t : Time) : result Z :=
  r <- RYearDay t ;;
  Ok (r / 7)%go.

(** func (t Time) Add(d time.Duration) Time *)
Definition Add (t : Time) (d : Z) : result Time :=
  g <- ToTime t ;;
  Ok (FromTime (gotime.Add g d)).

(** func (t Time) AddDate(years, months, days int) Time *)
Definition AddDate (t : Time) (years months days : Z) : result Time :=
  g <- ToTime t ;;
  g' <- gotime.AddDate g years months days ;;
  Ok (FromTime g').

(** func (t Time) Yesterday() Time *)
Definition Yesterday (t : Time) : result Time := AddDate t 0 0 (-1).

(** func (t Time) Tomorrow() Time *)
Definition Tomorrow (t : Time) : result Time := AddDate t 0 0 1.

(** func (t Time) FirstWeekDay() Time *)
Definition FirstWeekDay (t : Time) : result Time :=
  if wday t =? Shanbe then Ok t
  else AddDate t 0 0 (Shanbe - wday t)%go.

(** func (t Time) LastWeekday() Time *)
Definition LastWeekday (t : Time) : result Time :=
  if wday t =? Jomeh then Ok t
  else AddDate t 0 0 (Jomeh - wday t)%go.

(** func (t Time) Zone() (string, int) *)
Definition Zone (t : Time) : result (string * Z) :=
  g <- ToTime t ;;
  Ok (gotime.Zone g).

End ptime.

(* ================================================================== *)
(** ** Vocabulary of the specification *)
(* ================================================================== *)

(** What the properties below speak about, written with the functions of
    the package. *)
Module Vocabulary.

Import GoInt ptime.

(** A moment of the given year; the other fields do not matter to
    [IsLeap]. *)
Definition of_year (y : Z) : Time := mkTime y 1 1 0 0 0 0 None 0.

(** A moment on the given day, at midnight in Iran. *)
Definition on_day (y m d : Z) : Time := mkTime y m d 0 0 0 0 (Some Iran) 0.

(** Noon of Farvardin 1, 1395. *)
Definition noon : Time := mkTime 1395 1 1 12 0 0 0 (Some Iran) 1.

(** The year at which [25*year + 11] wraps around to zero. *)
Definition zero_year : Z := -2951479051793528259.

(** The last day of the month of [t]: the table look-up of [norm_day],
    which [RMonthDay] and [LastMonthDay] repeat. *)
Definition daysInMonth (t : Time) : result Z :=
  let i := if IsLeap t then 1 else 0 in
  row <- index p_month_count (month t - 1)%go ;;
  index row i.

(** A Persian date that satisfies the invariants of the data model. *)
Definition valid_date (t : Time) : Prop :=
  1 <= month t <= 12
  /\ exists last, daysInMonth t = Ok last /\ 1 <= day t <= last.

(** The weekday cached in [t] is the one of the exported host time. *)
Definition weekday_consistent (t : Time) : Prop :=
  exists g, ToTime t = Ok g /\ wday t = getWeekday (gotime.Weekday g).

(** The host day count of the Gregorian date [Time.Time()] hands to
    [time.Date]. *)
Definition export_day (t : Time) : Z :=
  let '(y, m, d) := Time_ymd (getJdn (year t) (month t) (day t)) in
  gotime.days_from_civil (y + (m - 1) / 12) ((m - 1) mod 12 + 1) d.

(** The clock fields are in their ranges. *)
Definition valid_clock (t : Time) : Prop :=
  0 <= hour t <= 23 /\ 0 <= min t <= 59 /\ 0 <= sec t <= 59
  /\ 0 <= nsec t <= 999999999.

(** The last day of a month of the proleptic Gregorian calendar. *)
Definition gregorian_days (y m : Z) : Z :=
  if m =? 2 then (if gotime.isLeap y then 29 else 28)
  else if (m =? 4) || (m =? 6) || (m =? 9) || (m =? 11) then 30
  else 31.

Definition valid_gregorian (y m d : Z) : Prop :=
  1 <= m <= 12 /\ 1 <= d <= gregorian_days y m.

(** The calendar [getJdn] itself lays out: the length it gives to a year
    and to a month. *)
Definition jdn_year_days (y : Z) : Z := getJdn (y + 1) 1 1 - getJdn y 1 1.

Definition jdn_month_days (y m : Z) : Z :=
  if m <=? 6 then 31 else if m <=? 11 then 30 else jdn_year_days y - 336.

(** [getJdn] without wrap-around, for the years after its reference year:
    days before the month, and the day number before Farvardin 1. *)
Definition month_offset (m : Z) : Z :=
  if m <=? 7 then (m - 1) * 31 else (m - 1) * 30 + 6.

Definition year_start (y : Z) : Z :=
  (682 * y - 110) / 2816 + (y - 1) * 365 + 1948320.

Definition year_days (y : Z) : Z := year_start (y + 1) - year_start y.

(** The year [SetTime] reads from a day number: lines 303-318. *)
Definition SetTime_year (jdn : Z) : Z :=
  let dep := (jdn - getJdn 475 1 1)%go in
  let cyc := (dep / 1029983)%go in
  let rem := (dep %% 1029983)%go in
  let ycyc :=
    if rem =? 1029982 then 2820
    else
      let a := (rem / 366)%go in
      ((2134 * a + 2816 * (rem %% 366) + 2815) / 1028522 + a + 1)%go in
  let year := (ycyc + 2820 * cyc + 474)%go in
  if year <=? 0 then (year - 1)%go else year.

(** The leap years among [n] years from [y] on. *)
Fixpoint leap_count (y : Z) (n : nat) : nat :=
  match n with
  | O => O
  | S k => ((if IsLeap (of_year y) then 1 else 0) + leap_count (y + 1) k)%nat
  end.

(** A moment that has the invariants of the data model. *)
Definition sound (t : Time) : Prop :=
  valid_date t /\ valid_clock t /\ weekday_consistent t.

(** Farvardin 1, 1395 at midnight in Iran. *)
Definition farvardin_1 : Time := on_day 1395 1 1.

(** The formulas of [SetTime] and [Time.Time()] without wrap-around, with
    floor division: day numbers of the Gregorian calendar (year and month
    counted from March) and of the Julian calendar, and their inversions. *)
Definition march_shift (m : Z) : Z := if m <=? 2 then -1 else 0.

Definition jdn_of_gregorian (Y M d : Z) : Z :=
  (1461 * Y) / 4 + (367 * M) / 12 - (3 * ((Y + 100) / 100)) / 4 + d - 32075.

Definition jdn_of_julian (y m d : Z) : Z :=
  367 * y - (7 * (y + 5001 + march_shift m)) / 4 + (275 * m) / 9 + d
  + 1729777.

Definition gregorian_of_jdn (jdn : Z) : Z * Z * Z :=
  let l := jdn + 68569 in
  let n := 4 * l / 146097 in
  let l := l - (146097 * n + 3) / 4 in
  let i := 4000 * (l + 1) / 1461001 in
  let l := l - 1461 * i / 4 + 31 in
  let j := 80 * l / 2447 in
  let day := l - 2447 * j / 80 in
  let l := j / 11 in
  (100 * (n - 49) + i + l, j + 2 - 12 * l, day).

Definition julian_of_jdn (jdn : Z) : Z * Z * Z :=
  let j := jdn + 1402 in
  let k := (j - 1) / 1461 in
  let l := j - 1461 * k in
  let n := (l - 1) / 365 - l / 1461 in
  let i := l - 365 * n + 30 in
  let j := 80 * i / 2447 in
  let day := i - 2447 * j / 80 in
  let i := j / 11 in
  (4 * k + n + i - 4716, j + 2 - 12 * i, day).

(** A day of the Julian calendar. *)
Definition valid_julian (y m d : Z) : Prop :=
  1 <= m <= 12 /\ 1 <= d <= 31
  /\ (m = 4 \/ m = 6 \/ m = 9 \/ m = 11 -> d <= 30)
  /\ (m = 2 -> d <= 28 \/ (d = 29 /\ y mod 4 = 0)).

(** [valid_gregorian], written out for arithmetic. *)
Definition gregorian_day (y m d : Z) : Prop :=
  1 <= m <= 12 /\ 1 <= d <= 31
  /\ (m = 4 \/ m = 6 \/ m = 9 \/ m = 11 -> d <= 30)
  /\ (m = 2 ->
      d <= 28
      \/ (d = 29 /\ y mod 4 = 0 /\ (y mod 100 <> 0 \/ y mod 400 = 0))).

(** A host date on or after 1582-10-15, the first day [SetTime] reads
    with its Gregorian formula, up to the year 3000. *)
Definition after_cutover (y m d : Z) : Prop :=
  1582 <= y <= 3000 /\ (y = 1582 -> 10 < m \/ (m = 10 /\ 14 < d)).

(** A host instant of that range. *)
Definition host_range (g : gotime.Time) : Prop :=
  0 <= gotime.nanos g < 1000000000
  /\ let '(y, m, d) := gotime.YMD g in after_cutover y m d.

(** The Julian Day Number [Time.Time()] computes for [t]. *)
Definition day_number (t : Time) : Z := getJdn (year t) (month t) (day t).

(** A moment [Time.Time()] exports without loss: it has a location, its
    clock is in range, its date is a day of the calendar [getJdn] lays
    out, and its day number is one of 1582-10-15 .. 3000-12-31 (Mehr 23,
    961 .. Dey 10, 2379). *)
Definition convertible (t : Time) : Prop :=
  (exists l, loc t = Some l) /\ valid_clock t
  /\ 475 <= year t <= 3000 /\ 1 <= month t <= 12
  /\ 1 <= day t <= jdn_month_days (year t) (month t)
  /\ 2299160 < day_number t <= 2817152.

(** The host instant of [noon]: 2016-03-20 12:00:00 in Iran. *)
Definition noon_instant : gotime.Time := gotime.mkTime 1458462600 0 Iran.

End Vocabulary.

(* ================================================================== *)
(** ** Wrap-around arithmetic *)
(* ================================================================== *)

Module GoIntFacts.

Import GoInt.

Lemma wrap_mod (z : Z) :
  wrap z = (z + 9223372036854775808) mod 18446744073709551616
           - 9223372036854775808.
Proof.
  unfold wrap, min_int, max_int.
  destruct (Z.leb_spec (-9223372036854775808) z);
    destruct (Z.leb_spec z 9223372036854775807); simpl; try reflexivity.
  rewrite Z.mod_small by lia. lia.
Qed.

Lemma wrap_small (z : Z) : in_int z -> wrap z = z.
Proof.
  unfold in_int, wrap. intros [Hlo Hhi].
  apply Z.leb_le in Hlo, Hhi. now rewrite Hlo, Hhi.
Qed.

Lemma wrap_in_int (z : Z) : in_int (wrap z).
Proof.
  rewrite wrap_mod. unfold in_int, min_int, max_int.
  pose proof (Z.mod_pos_bound (z + 9223372036854775808)
                18446744073709551616 eq_refl).
  lia.
Qed.

Lemma wrap_add_l (a b : Z) : wrap (wrap a + b) = wrap (a + b).
Proof.
  rewrite (wrap_mod a), !wrap_mod. f_equal.
  replace (a + b + 9223372036854775808)
    with (a + 9223372036854775808 + b) by ring.
  rewrite <- (Zplus_mod_idemp_l (a + 9223372036854775808) b).
  f_equal. ring.
Qed.

Lemma wrap_sub_r (a b : Z) : wrap (a - wrap b) = wrap (a - b).
Proof.
  rewrite (wrap_mod b), !wrap_mod. f_equal.
  replace (a - b + 9223372036854775808)
    with (a + 18446744073709551616 - (b + 9223372036854775808)) by ring.
  rewrite <- (Zminus_mod_idemp_r _ (b + 9223372036854775808)).
  f_equal. ring.
Qed.

(** A wrapped value is zero exactly when the exact one is a multiple of
    [2^64]. *)
Lemma wrap_zero (z : Z) :
  wrap z = 0 -> exists k, z = 18446744073709551616 * k.
Proof.
  rewrite wrap_mod. intros H.
  exists ((z + 9223372036854775808) / 18446744073709551616).
  pose proof (Z.div_mod (z + 9223372036854775808) 18446744073709551616).
  lia.
Qed.

(** Side conditions "this value fits an [int]". *)
Ltac in_range :=
  unfold in_int, min_int, max_int;
  Z.quot_rem_to_equations; Z.div_mod_to_equations; lia.

(** Remove the wrap-arounds of a term from the inside out, each one
    justified by the range of its argument. *)
Ltac unwrap_step :=
  match goal with
  | |- context [wrap ?z] =>
      lazymatch z with
      | context [wrap _] => fail
      | _ => rewrite (wrap_small z) by in_range
      end
  end.

Ltac unwrap := unfold add, sub, mul, quo, rem; repeat unwrap_step.

Lemma quot_bound (a b : Z) :
  0 < b ->
  (0 <= a -> b * Z.quot a b <= a < b * Z.quot a b + b)
  /\ (a <= 0 -> b * Z.quot a b - b < a <= b * Z.quot a b).
Proof.
  intros Hb. Z.quot_rem_to_equations. lia.
Qed.

(** Each truncated quotient becomes a variable with its two-sided
    bound. *)
Ltac abstract_quots :=
  repeat match goal with
         | |- context [Z.quot ?a ?b] =>
             lazymatch a with
             | context [Z.quot _ _] => fail
             | _ =>
                 let H := fresh "Hq" in
                 let q := fresh "q" in
                 pose proof (quot_bound a b ltac:(lia)) as H;
                 set (q := Z.quot a b) in *; clearbody q
             end
         end.

Ltac fits := unfold in_int, min_int, max_int; abstract_quots; lia.

Ltac peel_step :=
  match goal with
  | |- context [wrap ?z] =>
      lazymatch z with
      | context [wrap _] => fail
      | _ => rewrite (wrap_small z) by fits
      end
  end.

(** All wrap-arounds of the goal, or failure. *)
Ltac peel :=
  unfold add, sub, mul, quo, rem; repeat peel_step;
  lazymatch goal with
  | |- context [wrap _] => fail "a value may not fit"
  | _ => idtac
  end.

(** Truncated quotients of non-negative values are floor quotients. *)
Ltac nonneg := Z.quot_rem_to_equations; Z.div_mod_to_equations; lia.

Ltac quot_to_div :=
  repeat match goal with
         | |- context [Z.quot ?a ?b] =>
             lazymatch a with
             | context [Z.quot _ _] => fail
             | _ => rewrite (Z.quot_div_nonneg a b) by nonneg
             end
         end.

Lemma div_bound (a b : Z) : 0 < b -> b * (a / b) <= a < b * (a / b) + b.
Proof. intros Hb. Z.div_mod_to_equations. lia. Qed.

Ltac int_range := unfold in_int, min_int, max_int; lia.

(** One wrap-around of the goal, innermost first.  A quotient of a
    non-negative value becomes the floor quotient and then a variable
    that carries its bounds. *)
Ltac exact_step :=
  match goal with
  | |- context [wrap ?z] =>
      lazymatch z with
      | context [wrap _] => fail
      | Z.quot ?a ?b =>
          rewrite (Z.quot_div_nonneg a b) by lia;
          let H := fresh "Hq" in
          let q := fresh "q" in
          pose proof (div_bound a b ltac:(lia)) as H;
          set (q := a / b) in *; clearbody q;
          rewrite (wrap_small q) by int_range
      | _ => rewrite (wrap_small z) by int_range
      end
  end.

(** All wrap-arounds of the goal, or failure. *)
Ltac exact_arith :=
  unfold add, sub, mul, quo, rem; repeat exact_step;
  lazymatch goal with
  | |- context [wrap _] => fail "a value may not fit"
  | _ => idtac
  end.

End GoIntFacts.

(* ================================================================== *)
(** ** The leap-year rule: [divider] and [IsLeap] *)
(* ================================================================== *)

Module LeapRule.

Import GoInt GoIntFacts ptime.

(** On a positive numerator [divider] is Go's [%]. *)
Lemma divider_pos (num den : Z) : 0 < num -> divider num den = Z.rem num den.
Proof.
  intros H. unfold divider, rem.
  apply Z.ltb_lt in H. now rewrite H.
Qed.

(** On a negative numerator the second branch is the floor-style
    remainder, whatever the intermediate product does. *)
Lemma divider_neg_33 (num : Z) :
  in_int num -> num < 0 -> divider num 33 = num mod 33.
Proof.
  unfold in_int, min_int, max_int. intros Hr Hneg.
  unfold divider. destruct (Z.ltb_spec 0 num) as [Hp | _]; [lia |].
  unfold sub, mul, quo, add.
  rewrite wrap_sub_r.
  rewrite (wrap_small (num + 1)) by (unfold in_int, min_int, max_int; lia).
  assert (Hq : -279496122328932600 <= Z.quot (num + 1) 33 <= 0).
  { Z.quot_rem_to_equations. lia. }
  rewrite (wrap_small (Z.quot (num + 1) 33))
    by (unfold in_int, min_int, max_int; lia).
  rewrite (wrap_small (Z.quot (num + 1) 33 - 1))
    by (unfold in_int, min_int, max_int; lia).
  assert (He : num - (Z.quot (num + 1) 33 - 1) * 33 = num mod 33).
  { Z.quot_rem_to_equations. Z.div_mod_to_equations. lia. }
  rewrite He. apply wrap_small.
  pose proof (Z.mod_pos_bound num 33 eq_refl).
  unfold in_int, min_int, max_int. lia.
Qed.

Lemma divider_33 (num : Z) :
  in_int num -> num <> 0 -> divider num 33 = num mod 33.
Proof.
  intros Hr Hnz.
  destruct (Z.lt_total num 0) as [Hn | [Hz | Hp]].
  - now apply divider_neg_33.
  - contradiction.
  - rewrite divider_pos by assumption.
    apply Z.rem_mod_nonneg; lia.
Qed.

(** The numerator [IsLeap] passes to [divider] is the exact [25*year + 11]
    as long as that fits an [int]. *)
Lemma IsLeap_numerator (y : Z) :
  in_int (25 * y + 11) -> (25 * y + 11)%go = 25 * y + 11.
Proof.
  intros H. unfold add, mul.
  rewrite wrap_add_l. now apply wrap_small.
Qed.

End LeapRule.

Module LeapClaims.

Import GoInt GoIntFacts ptime Vocabulary LeapRule.

(** C3 (amended).  For every year for which [25*year + 11] fits an [int]
    (no wrap-around), negative years included, [IsLeap] is true exactly
    when the floor-style remainder of [25*year + 11] modulo 33 is below 8;
    year 1403 is leap and year 1404 is not. *)
Theorem IsLeap_floor_remainder (t : Time)
    (Hfit : in_int (25 * year t + 11)) :
  (IsLeap t = true <-> (25 * year t + 11) mod 33 < 8)
  /\ (year t = 1403 -> IsLeap t = true)
  /\ (year t = 1404 -> IsLeap t = false).
Proof.
  assert (Hnum : divider (25 * year t + 11)%go 33 = (25 * year t + 11) mod 33).
  { rewrite IsLeap_numerator by assumption.
    apply divider_33; [assumption | lia]. }
  unfold IsLeap. rewrite Hnum.
  split; [apply Z.ltb_lt |].
  split; intros Hy; rewrite Hy; reflexivity.
Qed.

Lemma IsLeap_floor_remainder_witness :
  in_int (25 * year (of_year 1403) + 11)
  /\ (IsLeap (of_year 1403) = true
      <-> (25 * year (of_year 1403) + 11) mod 33 < 8)
  /\ IsLeap (of_year 1403) = true.
Proof.
  assert (H : in_int (25 * year (of_year 1403) + 11)).
  { unfold in_int, min_int, max_int. simpl. lia. }
  split; [exact H |].
  destruct (IsLeap_floor_remainder (of_year 1403) H) as [Hiff [H03 _]].
  split; [exact Hiff | apply H03; reflexivity].
Defined.

(** C3 as stated fails where the product wraps around: in year [10^18]
    the exact remainder is 3, yet [IsLeap] is false. *)
Lemma IsLeap_wraps_counterexample :
  in_int (year (of_year 1000000000000000000))
  /\ ~ (IsLeap (of_year 1000000000000000000) = true
        <-> (25 * year (of_year 1000000000000000000) + 11) mod 33 < 8).
Proof.
  split.
  - unfold in_int, min_int, max_int. simpl. lia.
  - intros [_ H].
    assert (Hf : IsLeap (of_year 1000000000000000000) = false)
      by (vm_compute; reflexivity).
    rewrite Hf in H. discriminate H. vm_compute. reflexivity.
Qed.

(** C10 (amended).  For every denominator [den >= 2] (an [int]),
    [divider 0 den] is [den], not the floor-style remainder 0: the
    truncating branch is taken only for a strictly positive numerator.
    [IsLeap] reaches that case for no year except [zero_year], the one
    64-bit value at which [25*year + 11] wraps around to zero. *)
Theorem divider_zero_numerator (den : Z) (t : Time)
    (Hden : 2 <= den <= max_int)
    (Hyear : in_int (year t)) (Hnot : year t <> zero_year) :
  divider 0 den = den
  /\ divider 0 den <> 0 mod den
  /\ (forall num, 0 < num -> divider num den = Z.rem num den)
  /\ (25 * year t + 11)%go <> 0.
Proof.
  assert (Hd : divider 0 den = den).
  { unfold divider, sub, mul, quo, add. rewrite Z.ltb_irrefl.
    rewrite (wrap_small (0 + 1)) by (unfold in_int, min_int, max_int; lia).
    rewrite (Z.quot_small (0 + 1) den) by lia.
    rewrite (wrap_small 0) by (unfold in_int, min_int, max_int; lia).
    rewrite (wrap_small (0 - 1)) by (unfold in_int, min_int, max_int; lia).
    rewrite (wrap_small ((0 - 1) * den))
      by (unfold in_int, min_int, max_int in *; lia).
    rewrite wrap_small by (unfold in_int, min_int, max_int in *; lia).
    lia. }
  split; [exact Hd |].
  split; [rewrite Hd, Z.mod_0_l by lia; lia |].
  split; [intros num Hnum; now apply divider_pos |].
  unfold add, mul. rewrite wrap_add_l. intros Hz.
  apply wrap_zero in Hz. destruct Hz as [k Hk].
  unfold in_int, min_int, max_int, zero_year in *.
  assert (Hk4 : k = -4) by lia.
  subst k. lia.
Qed.

Lemma divider_zero_numerator_witness :
  divider 0 33 = 33 /\ (25 * year (of_year 1403) + 11)%go <> 0.
Proof.
  assert (Hden : 2 <= 33 <= max_int) by (unfold max_int; lia).
  assert (Hyear : in_int (year (of_year 1403)))
    by (unfold in_int, min_int, max_int; simpl; lia).
  assert (Hnot : year (of_year 1403) <> zero_year)
    by (unfold zero_year; simpl; lia).
  destruct (divider_zero_numerator 33 (of_year 1403) Hden Hyear Hnot)
    as [H1 [_ [_ H4]]].
  split; [exact H1 | exact H4].
Defined.

(** C10 as stated fails at [zero_year]: the numerator [IsLeap] hands to
    [divider] is zero there, so the year is judged by [divider 0 33 = 33]. *)
Lemma IsLeap_zero_numerator_counterexample :
  in_int (year (of_year zero_year))
  /\ (25 * year (of_year zero_year) + 11)%go = 0
  /\ divider (25 * year (of_year zero_year) + 11)%go 33 = 33.
Proof.
  split; [unfold in_int, min_int, max_int; simpl; unfold zero_year; lia |].
  split; vm_compute; reflexivity.
Qed.

End LeapClaims.

(* ================================================================== *)
(** ** Clock fields: [SetMinute], [AmPm], [Hour12] *)
(* ================================================================== *)

Module ClockClaims.

Import GoInt GoIntFacts ptime Vocabulary.

Lemma between_clamp (value lo hi : Z) :
  lo <= hi -> between value lo hi = Z.max lo (Z.min value hi).
Proof.
  intros H. unfold between.
  destruct (Z.ltb_spec value lo); [lia |].
  destruct (Z.ltb_spec hi value); lia.
Qed.

(** C7.  For every [Time] and every integer [x], [SetMinute x] stores [x]
    saturated into [[0, 59]] (75 gives 59, nothing is carried into the
    hour) and leaves year, month, day, hour, second, nanosecond, location
    and weekday as they were. *)
Theorem SetMinute_saturates (t : Time) (x : Z) :
  min (SetMinute t x) = Z.max 0 (Z.min x 59)
  /\ min (SetMinute t 75) = 59
  /\ year (SetMinute t x) = year t
  /\ month (SetMinute t x) = month t
  /\ day (SetMinute t x) = day t
  /\ hour (SetMinute t x) = hour t
  /\ sec (SetMinute t x) = sec t
  /\ nsec (SetMinute t x) = nsec t
  /\ loc (SetMinute t x) = loc t
  /\ wday (SetMinute t x) = wday t.
Proof.
  unfold SetMinute, norm_minute. cbn [year month day hour min sec nsec loc wday].
  split; [apply between_clamp; lia |].
  repeat split; reflexivity.
Qed.

(** C8.  [AmPm] is [PM] exactly when the hour is above 12, or is 12 with a
    non-zero minute or second, and [AM] otherwise; 12:00:00 is [AM] and
    12:01 is [PM]. *)
Theorem AmPm_marker (t : Time) :
  (AmPm t = PM <->
     hour t > 12 \/ (hour t = 12 /\ (min t > 0 \/ sec t > 0)))
  /\ (AmPm t = AM <->
        ~ (hour t > 12 \/ (hour t = 12 /\ (min t > 0 \/ sec t > 0))))
  /\ AmPm (mkTime (year t) (month t) (day t) 12 0 0 (nsec t) (loc t) (wday t))
     = AM
  /\ AmPm (mkTime (year t) (month t) (day t) 12 1 (sec t) (nsec t) (loc t)
                  (wday t))
     = PM.
Proof.
  unfold AmPm, AM, PM. cbn [hour min sec].
  split; [| split; [| split; reflexivity]].
  - destruct (Z.ltb_spec 12 (hour t)); destruct (Z.eqb_spec (hour t) 12);
      destruct (Z.ltb_spec 0 (min t)); destruct (Z.ltb_spec 0 (sec t));
      cbn; split; intros; try lia; try discriminate.
  - destruct (Z.ltb_spec 12 (hour t)); destruct (Z.eqb_spec (hour t) 12);
      destruct (Z.ltb_spec 0 (min t)); destruct (Z.ltb_spec 0 (sec t));
      cbn; split; intros; try lia; try discriminate; try reflexivity.
Qed.

(** C9 (amended).  For an hour in [[0, 23]], [Hour12] is [hour - 12] from
    noon on ([hour >= 12], so 12 gives 0) and the hour itself before noon
    (0 gives 0); the result lies in [[0, 11]].  Only [modifyHour] turns a
    reported zero into the maximum of the format. *)
Theorem Hour12_from_noon (t : Time) (Hh : 0 <= hour t <= 23) :
  (12 <= hour t -> Hour12 t = hour t - 12)
  /\ (hour t < 12 -> Hour12 t = hour t)
  /\ 0 <= Hour12 t <= 11
  /\ (forall max, modifyHour 0 max = max)
  /\ (forall value max, value <> 0 -> modifyHour value max = value).
Proof.
  assert (Hsub : (hour t - 12)%go = hour t - 12).
  { unfold sub. apply wrap_small. unfold in_int, min_int, max_int. lia. }
  unfold Hour12. rewrite Hsub.
  destruct (Z.leb_spec 12 (hour t)).
  - repeat split; intros; try lia.
    unfold modifyHour. destruct (Z.eqb_spec value 0); [contradiction | easy].
  - repeat split; intros; try lia.
    unfold modifyHour. destruct (Z.eqb_spec value 0); [contradiction | easy].
Qed.

Lemma Hour12_from_noon_witness :
  0 <= hour noon <= 23 /\ Hour12 noon = hour noon - 12 /\ Hour12 noon = 0.
Proof.
  assert (Hh : 0 <= hour noon <= 23) by (simpl; lia).
  destruct (Hour12_from_noon noon Hh) as [H12 _].
  split; [exact Hh |].
  split; [apply H12; simpl; lia | reflexivity].
Defined.

(** C9 as stated fails at noon: the hour is in range and not above 12, yet
    [Hour12] does not return it unchanged. *)
Lemma Hour12_noon_counterexample :
  0 <= hour noon <= 23 /\ ~ hour noon > 12 /\ Hour12 noon <> hour noon.
Proof.
  split; [simpl; lia |].
  split; [simpl; lia |].
  vm_compute. discriminate.
Qed.

End ClockClaims.

(* ================================================================== *)
(** ** The calendar of [getJdn], from its reference year on *)
(* ================================================================== *)

(** From year 475 on, [dep] in [SetTime] is not negative and Go's
    truncating operators agree with the floor ones: there the
    day-number-to-date fragment inverts [getJdn] on the calendar [getJdn]
    lays out. *)
Module PersianCycle.

Import GoInt GoIntFacts ptime Vocabulary.

Lemma getJdn_exact (y m d : Z) :
  475 <= y <= 3001 -> 0 <= m <= 13 -> -400 <= d <= 400 ->
  getJdn y m d = d + month_offset m + year_start y.
Proof.
  intros Hy Hm Hd. unfold getJdn, month_offset, year_start.
  destruct (Z.leb_spec 0 y); [| lia].
  destruct (Z.leb_spec m 7);
    unwrap; Z.quot_rem_to_equations; Z.div_mod_to_equations; lia.
Qed.

Lemma year_days_range (y : Z) : 365 <= year_days y <= 366.
Proof. unfold year_days, year_start. Z.div_mod_to_equations. lia. Qed.

Lemma jdn_year_days_exact (y : Z) :
  475 <= y <= 3000 -> jdn_year_days y = year_days y.
Proof.
  intros Hy. unfold jdn_year_days, year_days.
  rewrite !getJdn_exact by lia.
  replace (month_offset 1) with 0 by reflexivity. lia.
Qed.

Lemma SetTime_ymd_year (jdn : Z) :
  SetTime_ymd jdn =
  let year := SetTime_year jdn in
  let dy := (jdn - getJdn year 1 1 + 1)%go in
  let month := if dy <=? 186 then ceil_div dy 31 else ceil_div (dy - 6) 30 in
  (year, month, (jdn - getJdn year month 1 + 1)%go).
Proof. reflexivity. Qed.

(** The closed form of the cycle year is linear in [dep]:
    [2134*a + 2816*r + 1028522*(a+1) = 2816*(366*a + r) + 1028522]. *)
Lemma SetTime_year_exact (y t : Z) :
  475 <= y <= 3000 -> 1 <= t <= year_days y ->
  SetTime_year (t + year_start y) = y.
Proof.
  intros Hy Ht. unfold SetTime_year.
  replace (getJdn 475 1 1) with 2121446 by (vm_compute; reflexivity).
  unfold year_days, year_start in *.
  assert (Hdep : 0 <= t + ((682 * y - 110) / 2816 + (y - 1) * 365 + 1948320)
                      - 2121446 < 1000000)
    by (Z.div_mod_to_equations; lia).
  set (jdn := t + _) in *.
  assert (Hd : (jdn - 2121446)%go = jdn - 2121446)
    by (unfold sub; apply wrap_small; in_range).
  cbv zeta. rewrite !Hd.
  set (dep := jdn - 2121446) in *.
  assert (Hc : (dep / 1029983)%go = 0).
  { unfold quo. rewrite Z.quot_small by lia. reflexivity. }
  assert (Hr : (dep %% 1029983)%go = dep).
  { unfold rem. apply Z.rem_small. lia. }
  rewrite Hc, Hr.
  destruct (Z.eqb_spec dep 1029982); [lia |].
  unwrap.
  match goal with
  | |- (if ?x <=? 0 then _ else _) = _ => assert (Hx : x = y)
  end.
  { subst dep jdn. Z.quot_rem_to_equations. Z.div_mod_to_equations. lia. }
  rewrite Hx. destruct (Z.leb_spec y 0); [lia | reflexivity].
Qed.

Lemma month_of_day_of_year (m d : Z) :
  1 <= m <= 12 -> 1 <= d ->
  d <= (if m <=? 6 then 31 else 30) ->
  let dy := d + month_offset m in
  (if dy <=? 186 then ceil_div dy 31 else ceil_div (dy - 6) 30) = m.
Proof.
  intros Hm Hd Hl dy. subst dy. unfold month_offset, ceil_div.
  assert (Hc : m = 1 \/ m = 2 \/ m = 3 \/ m = 4 \/ m = 5 \/ m = 6 \/ m = 7
               \/ m = 8 \/ m = 9 \/ m = 10 \/ m = 11 \/ m = 12) by lia.
  repeat (destruct Hc as [Hc | Hc];
          [subst m; simpl in *;
           match goal with
           | |- (if ?c then _ else _) = _ =>
               destruct c eqn:E;
               [apply Z.leb_le in E | apply Z.leb_gt in E]
           end;
           Z.div_mod_to_equations; lia |]).
  subst m; simpl in *.
  match goal with
  | |- (if ?c then _ else _) = _ =>
      destruct c eqn:E; [apply Z.leb_le in E | apply Z.leb_gt in E]
  end;
    Z.div_mod_to_equations; lia.
Qed.

(** For the years 475 to 3000, every day of the calendar of [getJdn] comes
    back from its day number unchanged. *)
Lemma persian_round_trip_from_475 (y m d : Z) :
  475 <= y <= 3000 -> 1 <= m <= 12 -> 1 <= d <= jdn_month_days y m ->
  SetTime_ymd (getJdn y m d) = (y, m, d).
Proof.
  intros Hy Hm Hd.
  pose proof (jdn_year_days_exact y Hy) as Hyd.
  pose proof (year_days_range y) as Hyr.
  assert (Hd31 : d <= (if m <=? 6 then 31 else 30)).
  { unfold jdn_month_days in Hd. revert Hd.
    destruct (Z.leb_spec m 6); destruct (Z.leb_spec m 11);
      intros Hd; lia. }
  assert (Hd400 : d <= 31) by (destruct (m <=? 6); lia).
  assert (Ht : 1 <= d + month_offset m <= year_days y).
  { unfold jdn_month_days in Hd. unfold month_offset. revert Hd.
    destruct (Z.leb_spec m 6); destruct (Z.leb_spec m 11);
      destruct (Z.leb_spec m 7); intros Hd; lia. }
  rewrite SetTime_ymd_year.
  rewrite (getJdn_exact y m d) by lia.
  rewrite (SetTime_year_exact y (d + month_offset m)) by lia.
  cbv zeta.
  rewrite (getJdn_exact y 1 1) by lia.
  assert (Hs : 0 <= year_start y <= 4000000)
    by (unfold year_start; Z.div_mod_to_equations; lia).
  replace (month_offset 1) with 0 by reflexivity.
  assert (Hdy : ((d + month_offset m + year_start y)%Z
                 - (1 + 0 + year_start y)%Z + 1)%go
                = d + month_offset m).
  { unwrap. lia. }
  rewrite Hdy.
  rewrite (month_of_day_of_year m d) by lia.
  rewrite (getJdn_exact y m 1) by lia.
  f_equal. unwrap. lia.
Qed.

(** X11.  In the terms of the data model: a valid date of a year from
    475 to 3000 comes back unchanged from its day number ([getJdn], then
    the second half of [SetTime]), provided [IsLeap] does not call leap a
    year to which [getJdn] gives 365 days. *)
Lemma valid_date_round_trip (t : Time) :
  475 <= year t <= 3000 -> valid_date t ->
  (IsLeap t = true -> jdn_year_days (year t) = 366) ->
  SetTime_ymd (getJdn (year t) (month t) (day t))
  = (year t, month t, day t).
Proof.
  intros Hy [Hm [last [Hl Hd]]] Hleap.
  apply persian_round_trip_from_475; try assumption.
  pose proof (jdn_year_days_exact (year t) Hy) as Hyd.
  pose proof (year_days_range (year t)) as Hyr.
  unfold jdn_month_days. revert Hl. unfold daysInMonth.
  assert (Hc : month t = 1 \/ month t = 2 \/ month t = 3 \/ month t = 4
               \/ month t = 5 \/ month t = 6 \/ month t = 7 \/ month t = 8
               \/ month t = 9 \/ month t = 10 \/ month t = 11
               \/ month t = 12) by lia.
  destruct (IsLeap t);
    repeat (destruct Hc as [Hc | Hc];
            [rewrite Hc; cbn; intros Hl; injection Hl as <-; lia |]);
    rewrite Hc; cbn; intros Hl; injection Hl as <-;
    try (specialize (Hleap eq_refl)); lia.
Qed.

End PersianCycle.

(* ================================================================== *)
(** ** Conversions through the Julian Day Number *)
(* ================================================================== *)

Module Conversion.

Import GoInt GoIntFacts ptime Vocabulary.

(** C4.  The host instant 2016-03-20 00:00:00 UTC is set to Farvardin 1,
    1395. *)
Theorem SetTime_nowruz_1395 (pt : Time) :
  exists g,
    gotime.Date 2016 3 20 0 0 0 0 (Some gotime.UTC) = Ok g
    /\ gotime.YMD g = (2016, 3, 20)
    /\ year (SetTime pt g) = 1395
    /\ month (SetTime pt g) = Farvardin
    /\ day (SetTime pt g) = 1.
Proof.
  exists (gotime.mkTime 1458432000 0 gotime.UTC).
  repeat split; vm_compute; reflexivity.
Qed.

(** C1, where the code departs from it.  Farvardin 1 of year 1 is a valid
    date in [[1, 1500]]; its Julian Day Number 1948321 lies before the
    reference day of [getJdn 475 1 1], the difference [dep] is negative,
    Go's [/] and [%] truncate, and [SetTime] reads the day as year 2, month
    -11, day 8.  Esfand 30 of 1403 is valid too, 1403 being leap for
    [IsLeap]; [getJdn] counts 365 days for 1403, so the day comes back as
    Farvardin 1 of 1404. *)
Theorem persian_round_trip_breaks :
  valid_date (on_day 1 1 1)
  /\ getJdn 1 1 1 = 1948321
  /\ SetTime_ymd (getJdn 1 1 1) = (2, -11, 8)
  /\ valid_date (on_day 1403 12 30)
  /\ getJdn 1403 12 30 = getJdn 1404 1 1
  /\ SetTime_ymd (getJdn 1403 12 30) = (1404, 1, 1).
Proof.
  split.
  { split; [simpl; lia |]. exists 31. split; [reflexivity | simpl; lia]. }
  split; [vm_compute; reflexivity |].
  split; [vm_compute; reflexivity |].
  split.
  { split; [simpl; lia |]. exists 30. split; [reflexivity | simpl; lia]. }
  split; vm_compute; reflexivity.
Qed.

(** C2, where the code departs from it.  [SetTime] applies the Julian
    formula up to 1582-10-14, [Time.Time()] applies the Julian inversion up
    to day number 2299160 only, which is 1582-10-04 in that formula.  The
    ten days 1582-10-05 .. 1582-10-14 receive the day numbers of
    1582-10-15 .. 1582-10-24 and come back as those dates. *)
Theorem gregorian_round_trip_breaks :
  valid_gregorian 1582 10 10
  /\ SetTime_jdn 1582 10 4 = 2299160
  /\ SetTime_jdn 1582 10 5 = SetTime_jdn 1582 10 15
  /\ Time_ymd (SetTime_jdn 1582 10 10) = (1582, 10, 20)
  /\ Forall (fun d => Time_ymd (SetTime_jdn 1582 10 d) = (1582, 10, d + 10))
            [5; 6; 7; 8; 9; 10; 11; 12; 13; 14].
Proof.
  split.
  { unfold valid_gregorian.
    replace (gregorian_days 1582 10) with 31 by reflexivity. lia. }
  split; [vm_compute; reflexivity |].
  split; [vm_compute; reflexivity |].
  split; [vm_compute; reflexivity |].
  repeat constructor.
Qed.

End Conversion.

(* ================================================================== *)
(** ** Constructors and setters: panics and invariants *)
(* ================================================================== *)

Module Invariants.

Import GoInt GoIntFacts ptime Vocabulary.

Lemma gotime_Date_ok (y m d h mi s ns : Z) (l : gotime.Location) :
  exists g, gotime.Date y m d h mi s ns (Some l) = Ok g.
Proof. unfold gotime.Date, gotime.norm. eexists. reflexivity. Qed.

Lemma ToTime_ok (t : Time) (l : gotime.Location) :
  loc t = Some l -> exists g, ToTime t = Ok g.
Proof.
  intros Hl. unfold ToTime.
  destruct (Time_ymd (getJdn (year t) (month t) (day t))) as [[y m] d].
  rewrite Hl. apply gotime_Date_ok.
Qed.

Lemma ToTime_panics (t : Time) : loc t = None -> is_panic (ToTime t).
Proof.
  intros Hl. unfold ToTime.
  destruct (Time_ymd (getJdn (year t) (month t) (day t))) as [[y m] d].
  rewrite Hl. eexists. reflexivity.
Qed.

(** [Time.Time()] does not read the cached weekday. *)
Lemma ToTime_ext (t u : Time) :
  year t = year u -> month t = month u -> day t = day u ->
  hour t = hour u -> min t = min u -> sec t = sec u -> nsec t = nsec u ->
  loc t = loc u ->
  ToTime t = ToTime u.
Proof.
  intros Hy Hm Hd Hh Hmi Hs Hns Hl. unfold ToTime.
  now rewrite Hy, Hm, Hd, Hh, Hmi, Hs, Hns, Hl.
Qed.

Lemma resetWeekday_ok (t : Time) (l : gotime.Location) :
  loc t = Some l ->
  exists g,
    ToTime t = Ok g
    /\ resetWeekday t
       = Ok (mkTime (year t) (month t) (day t) (hour t) (min t) (sec t)
                    (nsec t) (loc t) (getWeekday (gotime.Weekday g))).
Proof.
  intros Hl. destruct (ToTime_ok t l Hl) as [g Hg].
  exists g. split; [exact Hg |].
  unfold resetWeekday. rewrite Hg. reflexivity.
Qed.

Lemma daysInMonth_ok (t : Time) :
  1 <= month t <= 12 ->
  exists last, daysInMonth t = Ok last /\ 29 <= last <= 31.
Proof.
  intros Hm. unfold daysInMonth.
  assert (Hc : month t = 1 \/ month t = 2 \/ month t = 3 \/ month t = 4
               \/ month t = 5 \/ month t = 6 \/ month t = 7 \/ month t = 8
               \/ month t = 9 \/ month t = 10 \/ month t = 11
               \/ month t = 12) by lia.
  destruct (IsLeap t);
    repeat (destruct Hc as [Hc | Hc]; [rewrite Hc; eexists; split;
                                       [reflexivity | lia] |]);
    rewrite Hc; eexists; (split; [reflexivity | lia]).
Qed.

Lemma norm_day_daysInMonth (t : Time) :
  norm_day t =
  (last <- daysInMonth t ;;
   Ok (mkTime (year t) (month t) (between (day t) 1 last)
              (hour t) (min t) (sec t) (nsec t) (loc t) (wday t))).
Proof.
  unfold norm_day, daysInMonth.
  destruct (index p_month_count (month t - 1)%go); reflexivity.
Qed.

Lemma between_bounds (value lo hi : Z) :
  lo <= hi -> lo <= between value lo hi <= hi.
Proof.
  intros H. unfold between.
  destruct (Z.ltb_spec value lo); [lia |].
  destruct (Z.ltb_spec hi value); lia.
Qed.

(** [IsLeap] and the table look-up read the year and the month only. *)
Lemma daysInMonth_ext (t u : Time) :
  year t = year u -> month t = month u -> daysInMonth t = daysInMonth u.
Proof.
  intros Hy Hm. unfold daysInMonth, IsLeap. now rewrite Hy, Hm.
Qed.

(** With a month in range [norm_day] does not panic and leaves a valid
    date. *)
Lemma norm_day_ok (t : Time) :
  1 <= month t <= 12 ->
  exists last,
    daysInMonth t = Ok last
    /\ 29 <= last <= 31
    /\ norm_day t
       = Ok (mkTime (year t) (month t) (between (day t) 1 last)
                    (hour t) (min t) (sec t) (nsec t) (loc t) (wday t)).
Proof.
  intros Hm. destruct (daysInMonth_ok t Hm) as [last [Hd Hb]].
  exists last. split; [exact Hd |]. split; [exact Hb |].
  rewrite norm_day_daysInMonth, Hd. reflexivity.
Qed.

(** What [Set] leaves for a non-nil location: every clock field and the
    month saturated, the day saturated to the month's last day, the year
    as given. *)
Lemma Set_ok (t : Time) (y m d h mi s ns : Z) (l : gotime.Location) :
  exists t' last,
    Set_ t y m d h mi s ns (Some l) = Ok t'
    /\ year t' = y
    /\ month t' = Z.max 1 (Z.min m 12)
    /\ daysInMonth t' = Ok last
    /\ day t' = Z.max 1 (Z.min d last)
    /\ hour t' = Z.max 0 (Z.min h 23)
    /\ min t' = Z.max 0 (Z.min mi 59)
    /\ sec t' = Z.max 0 (Z.min s 59)
    /\ nsec t' = Z.max 0 (Z.min ns 999999999)
    /\ loc t' = Some l.
Proof.
  unfold Set_.
  destruct (resetWeekday_ok (mkTime y m d h mi s ns (Some l) (wday t)) l
              eq_refl) as [g [_ Hr]].
  rewrite Hr. cbn [bind year month day hour min sec nsec loc wday].
  unfold norm.
  set (u := norm_month _).
  assert (Hm : 1 <= month u <= 12).
  { subst u. cbn. apply between_bounds. lia. }
  destruct (norm_day_ok u Hm) as [last [Hd [Hb Hn]]].
  rewrite Hn. eexists. exists last.
  split; [reflexivity |].
  cbn [year month day hour min sec nsec loc wday].
  split; [reflexivity |].
  split; [subst u; cbn; apply ClockClaims.between_clamp; lia |].
  split; [rewrite <- Hd; apply daysInMonth_ext; reflexivity |].
  split; [subst u; cbn; apply ClockClaims.between_clamp; lia |].
  subst u. cbn.
  repeat split; try (apply ClockClaims.between_clamp; lia).
Qed.

Lemma Ok_not_panic {A : Type} (a : A) : ~ is_panic (Ok a).
Proof. intros [msg H]. discriminate H. Qed.

Lemma Date_Set (y m d h mi s ns : Z) (l : gotime.Location) :
  Date y m d h mi s ns (Some l) = Set_ zero y m d h mi s ns (Some l).
Proof. reflexivity. Qed.

Lemma In_ok (t : Time) (l : gotime.Location) :
  exists t', In t (Some l) = Ok t'.
Proof.
  unfold In.
  destruct (resetWeekday_ok
              (mkTime (year t) (month t) (day t) (hour t) (min t) (sec t)
                      (nsec t) (Some l) (wday t)) l eq_refl) as [g [_ Hr]].
  rewrite Hr. eexists. reflexivity.
Qed.

(** C6.  [Date], [Unix], [Now], [Set], [SetUnix] and [In] panic exactly
    when the location is nil.  With a location, whatever the other
    arguments are, [Date] returns a moment whose month, day, hour, minute,
    second and nanosecond are the given ones saturated into their ranges;
    nothing is rejected. *)
Theorem nil_location_is_the_only_panic
    (t : Time) (clock : gotime.Time) (y m d h mi s ns usec unsec : Z)
    (zone : option gotime.Location) (l : gotime.Location) :
  (is_panic (Date y m d h mi s ns zone) <-> zone = None)
  /\ (is_panic (Unix usec unsec zone) <-> zone = None)
  /\ (is_panic (Now clock zone) <-> zone = None)
  /\ (is_panic (Set_ t y m d h mi s ns zone) <-> zone = None)
  /\ (is_panic (SetUnix t usec unsec zone) <-> zone = None)
  /\ (is_panic (In t zone) <-> zone = None)
  /\ (exists t' last,
        Date y m d h mi s ns (Some l) = Ok t'
        /\ year t' = y
        /\ month t' = Z.max 1 (Z.min m 12)
        /\ daysInMonth t' = Ok last
        /\ day t' = Z.max 1 (Z.min d last)
        /\ hour t' = Z.max 0 (Z.min h 23)
        /\ min t' = Z.max 0 (Z.min mi 59)
        /\ sec t' = Z.max 0 (Z.min s 59)
        /\ nsec t' = Z.max 0 (Z.min ns 999999999)
        /\ loc t' = Some l).
Proof.
  assert (Hnil : forall (A : Type) (r : result A) (k : option gotime.Location),
             (k = None -> is_panic r) ->
             (forall l0, k = Some l0 -> exists a, r = Ok a) ->
             (is_panic r <-> k = None)).
  { intros A r k Hn Hs. split; [| exact Hn].
    intros Hp. destruct k as [l0 |]; [| reflexivity].
    destruct (Hs l0 eq_refl) as [a Ha]. rewrite Ha in Hp.
    now apply Ok_not_panic in Hp. }
  split.
  { apply Hnil.
    - intros ->. eexists. reflexivity.
    - intros l0 ->. rewrite Date_Set.
      destruct (Set_ok zero y m d h mi s ns l0) as [t' [last [H _]]].
      eauto. }
  split.
  { apply Hnil.
    - intros ->. eexists. reflexivity.
    - intros l0 ->. eexists. reflexivity. }
  split.
  { apply Hnil.
    - intros ->. eexists. reflexivity.
    - intros l0 ->. eexists. reflexivity. }
  split.
  { apply Hnil.
    - intros ->. eexists. reflexivity.
    - intros l0 ->.
      destruct (Set_ok t y m d h mi s ns l0) as [t' [last [H _]]].
      eauto. }
  split.
  { apply Hnil.
    - intros ->. eexists. reflexivity.
    - intros l0 ->. eexists. reflexivity. }
  split.
  { apply Hnil.
    - intros ->. eexists. reflexivity.
    - intros l0 ->. apply In_ok. }
  rewrite Date_Set. apply Set_ok.
Qed.

(** C5, where the code departs from it.  [Set] (and so [Date]) calls
    [resetWeekday] before [norm]: the weekday is read from the fields as
    given, the fields are saturated afterwards.  [Date 1395 1 32 ...] keeps
    the weekday of Ordibehesht 1 (Charshanbe) on Farvardin 31, a Seshanbe.
    [SetTime] stores what the conversion yields: 2026-03-20 becomes Esfand
    30 of 1404, a year that [IsLeap] gives 29 days in Esfand. *)
Theorem Date_leaves_stale_weekday :
  (exists t,
      Date 1395 1 32 0 0 0 0 (Some Iran) = Ok t
      /\ day t = 31
      /\ wday t = Charshanbe
      /\ (exists g, ToTime t = Ok g
                    /\ getWeekday (gotime.Weekday g) = Seshanbe)
      /\ ~ weekday_consistent t)
  /\ (exists g,
        gotime.Date 2026 3 20 0 0 0 0 (Some Iran) = Ok g
        /\ year (FromTime g) = 1404
        /\ month (FromTime g) = Esfand
        /\ day (FromTime g) = 30
        /\ daysInMonth (FromTime g) = Ok 29
        /\ ~ valid_date (FromTime g)).
Proof.
  split.
  - exists (mkTime 1395 1 31 0 0 0 0 (Some Iran) Charshanbe).
    split; [vm_compute; reflexivity |].
    split; [reflexivity |]. split; [reflexivity |].
    split.
    + exists (gotime.mkTime 1461011400 0 Iran).
      split; vm_compute; reflexivity.
    + intros [g [Hg Hw]]. vm_compute in Hg.
      injection Hg as <-. vm_compute in Hw. discriminate Hw.
  - exists (gotime.mkTime 1773952200 0 Iran).
    split; [vm_compute; reflexivity |].
    split; [vm_compute; reflexivity |].
    split; [vm_compute; reflexivity |].
    split; [vm_compute; reflexivity |].
    split; [vm_compute; reflexivity |].
    intros [_ [last [Hd Hr]]]. vm_compute in Hd.
    injection Hd as <-. vm_compute in Hr. destruct Hr as [_ Hr].
    apply Hr. reflexivity.
Qed.

(** *** What the setters do keep *)

(** With the clock in range [time.Date] carries nothing into the day: the
    weekday of the exported time is the one of the exported date. *)
Lemma ToTime_weekday (t : Time) (l : gotime.Location) :
  valid_clock t -> loc t = Some l ->
  exists g,
    ToTime t = Ok g
    /\ gotime.Weekday g = (export_day t + gotime.Thursday) mod 7.
Proof.
  intros [Hh [Hmi [Hs Hns]]] Hl. unfold ToTime, export_day.
  destruct (Time_ymd (getJdn (year t) (month t) (day t))) as [[y m] d].
  rewrite Hl. unfold gotime.Date, gotime.norm.
  rewrite (Z.div_small (nsec t)), (Z.mod_small (nsec t)) by lia.
  rewrite Z.add_0_r.
  rewrite (Z.div_small (sec t)), (Z.mod_small (sec t)) by lia.
  rewrite Z.add_0_r.
  rewrite (Z.div_small (min t)), (Z.mod_small (min t)) by lia.
  rewrite Z.add_0_r.
  rewrite (Z.div_small (hour t)), (Z.mod_small (hour t)) by lia.
  rewrite Z.add_0_r.
  eexists. split; [reflexivity |].
  unfold gotime.Weekday, gotime.local_day, gotime.local_sec.
  cbn [gotime.unix_sec gotime.loc].
  do 2 f_equal.
  symmetry.
  apply (Z.div_unique _ 86400 _ (hour t * 3600 + min t * 60 + sec t)); lia.
Qed.

Lemma weekday_consistent_located (t : Time) :
  weekday_consistent t -> exists l, loc t = Some l.
Proof.
  intros [g [Hg _]]. destruct (loc t) as [l |] eqn:Hl; [eauto |].
  destruct (ToTime_panics t Hl) as [msg Hp]. congruence.
Qed.

(** A change of the clock fields inside their ranges leaves the date
    valid and the cached weekday right. *)
Lemma clock_change_keeps_invariants (t u : Time) :
  year u = year t -> month u = month t -> day u = day t ->
  loc u = loc t -> wday u = wday t ->
  valid_clock t -> valid_clock u ->
  valid_date t -> weekday_consistent t ->
  valid_date u /\ weekday_consistent u.
Proof.
  intros Hy Hm Hd Hl Hw Hct Hcu [Hmt [last [Hlast Hday]]] Hwt.
  split.
  - split; [lia |]. exists last.
    rewrite (daysInMonth_ext u t Hy Hm). split; [exact Hlast | lia].
  - destruct (weekday_consistent_located t Hwt) as [l Hlt].
    destruct Hwt as [g [Hg Hwg]].
    destruct (ToTime_weekday t l Hct Hlt) as [g1 [Hg1 Hw1]].
    assert (Hlu : loc u = Some l) by congruence.
    destruct (ToTime_weekday u l Hcu Hlu) as [g2 [Hg2 Hw2]].
    exists g2. split; [exact Hg2 |].
    assert (g1 = g) by congruence. subst g1.
    rewrite Hw, Hwg, Hw1, Hw2.
    unfold export_day. now rewrite Hy, Hm, Hd.
Qed.


(** X15.  [SetYear], [SetMonth], [SetDay] normalise first and compute
    the weekday last: from a moment with a location (and, for [SetYear]
    and [SetDay], a month in range) they return a moment with a valid date
    and the right weekday.  [In] recomputes the weekday of the date it
    finds. *)
Lemma date_setters_keep_invariants (t : Time) (x : Z) (l l' : gotime.Location) :
  loc t = Some l ->
  (1 <= month t <= 12 ->
   exists t', SetYear t x = Ok t' /\ valid_date t' /\ weekday_consistent t')
  /\ (exists t',
        SetMonth t x = Ok t' /\ valid_date t' /\ weekday_consistent t')
  /\ (1 <= month t <= 12 ->
      exists t', SetDay t x = Ok t' /\ valid_date t' /\ weekday_consistent t')
  /\ (exists t',
        In t (Some l') = Ok t' /\ weekday_consistent t'
        /\ (valid_date t -> valid_date t')).
Proof.
  intros Hl.
  assert (Hreset : forall u : Time,
             loc u = Some l -> 1 <= month u <= 12 ->
             exists t',
               (v <- norm_day u ;; resetWeekday v) = Ok t'
               /\ valid_date t' /\ weekday_consistent t').
  { intros u Hlu Hmu.
    destruct (norm_day_ok u Hmu) as [last [Hlast [Hb Hn]]].
    rewrite Hn. cbn [bind].
    match goal with
    | |- exists t', resetWeekday ?v = _ /\ _ =>
        destruct (resetWeekday_ok v l Hlu) as [g [Hg Hr]];
        rewrite Hr; cbn [year month day hour min sec nsec loc wday]
    end.
    eexists. split; [reflexivity |]. split.
    - split; [exact Hmu |]. exists last. split.
      + rewrite <- Hlast. apply daysInMonth_ext; reflexivity.
      + cbn [day]. apply between_bounds. lia.
    - exists g. split; [| reflexivity].
      rewrite <- Hg. apply ToTime_ext; reflexivity. }
  split; [| split; [| split]].
  - intros Hm. unfold SetYear. apply Hreset; assumption.
  - unfold SetMonth. apply Hreset; [exact Hl |].
    cbn [norm_month month]. apply between_bounds. lia.
  - intros Hm. unfold SetDay. apply Hreset; assumption.
  - unfold In.
    match goal with
    | |- exists t', resetWeekday ?v = _ /\ _ =>
        destruct (resetWeekday_ok v l' eq_refl) as [g [Hg Hr]];
        rewrite Hr; cbn [year month day hour min sec nsec loc wday]
    end.
    eexists. split; [reflexivity |]. split.
    + exists g. split; [| reflexivity].
      rewrite <- Hg. apply ToTime_ext; reflexivity.
    + intros [Hm [last [Hlast Hd]]]. split; [exact Hm |].
      exists last. split; [| exact Hd].
      rewrite <- Hlast. apply daysInMonth_ext; reflexivity.
Qed.

End Invariants.

(* ================================================================== *)
(** ** Normalisation and the panics of the setters *)
(* ================================================================== *)

Module NormFacts.

Import GoInt GoIntFacts ptime Vocabulary Invariants.

Lemma between_fixed (v lo hi : Z) : lo <= v <= hi -> between v lo hi = v.
Proof.
  intros H. unfold between.
  destruct (Z.ltb_spec v lo); [lia |].
  destruct (Z.ltb_spec hi v); [lia | reflexivity].
Qed.

Lemma norm_fields (y m d h mi s ns : Z) (l : option gotime.Location) (w : Z) :
  norm_month (norm_hour (norm_minute (norm_second (norm_nanosecond
    (mkTime y m d h mi s ns l w)))))
  = mkTime y (between m 1 12) d (between h 0 23) (between mi 0 59)
           (between s 0 59) (between ns 0 999999999) l w.
Proof. reflexivity. Qed.

(** X1.  [norm] never panics, whatever the fields hold: the month is
    saturated before the table is indexed.  What it returns has the clock
    fields in range and a valid date, keeps year, location and cached
    weekday, and is a fixed point of [norm]. *)
Theorem norm_total_idempotent (t : Time) :
  exists t',
    norm t = Ok t'
    /\ valid_clock t' /\ valid_date t'
    /\ year t' = year t /\ loc t' = loc t /\ wday t' = wday t
    /\ norm t' = Ok t'.
Proof.
  destruct t as [y m d h mi s ns l w].
  unfold norm. rewrite norm_fields.
  pose proof (between_bounds ns 0 999999999) as Bns.
  pose proof (between_bounds s 0 59) as Bs.
  pose proof (between_bounds mi 0 59) as Bmi.
  pose proof (between_bounds h 0 23) as Bh.
  pose proof (between_bounds m 1 12) as Bm.
  set (u := mkTime _ _ _ _ _ _ _ _ _).
  assert (Hm : 1 <= month u <= 12) by (subst u; cbn [month]; lia).
  destruct (norm_day_ok u Hm) as [last [Hlast [Hb Hn]]].
  rewrite Hn. subst u. cbn [year month day hour min sec nsec loc wday] in *.
  pose proof (between_bounds d 1 last) as Bd.
  eexists. split; [reflexivity |].
  split; [unfold valid_clock; cbn [hour min sec nsec]; lia |].
  split.
  { split; [exact Hm |]. exists last. split.
    - rewrite <- Hlast. apply daysInMonth_ext; reflexivity.
    - cbn [day]. lia. }
  cbn [year loc wday].
  split; [reflexivity |]. split; [reflexivity |]. split; [reflexivity |].
  rewrite norm_fields.
  rewrite !(between_fixed (between _ _ _)) by (apply between_bounds; lia).
  set (v := mkTime _ _ _ _ _ _ _ _ _).
  destruct (norm_day_ok v Hm) as [last' [Hlast' [Hb' Hn']]].
  rewrite Hn'.
  assert (last' = last).
  { assert (E : daysInMonth v
                = daysInMonth (mkTime y (between m 1 12) d (between h 0 23)
                     (between mi 0 59) (between s 0 59)
                     (between ns 0 999999999) l w))
      by (apply daysInMonth_ext; reflexivity).
    congruence. }
  subst last'. subst v. cbn [year month day hour min sec nsec loc wday].
  rewrite (between_fixed (between _ _ _)) by lia. reflexivity.
Qed.

(** A moment that is already normal is a fixed point of [norm]. *)
Lemma norm_valid (t : Time) :
  valid_date t -> valid_clock t -> norm t = Ok t.
Proof.
  destruct t as [y m d h mi s ns l w].
  intros [Hm [last [Hlast Hd]]] [Hh [Hmi [Hs Hns]]].
  cbn [year month day hour min sec nsec] in *.
  unfold norm. rewrite norm_fields.
  rewrite !between_fixed by lia.
  set (u := mkTime _ _ _ _ _ _ _ _ _) in *.
  destruct (norm_day_ok u Hm) as [last' [Hlast' [_ Hn]]].
  rewrite Hn. assert (last' = last) by congruence. subst last'.
  subst u. cbn [year month day hour min sec nsec loc wday].
  rewrite between_fixed by lia. reflexivity.
Qed.

Lemma index_table_panics (i : Z) :
  ~ 0 <= i <= 11 -> is_panic (index p_month_count i).
Proof.
  intros H. unfold index.
  destruct (Z.ltb_spec i 0); [eexists; reflexivity |].
  assert (Hn : (12 <= Z.to_nat i)%nat) by lia.
  destruct (nth_error p_month_count (Z.to_nat i)) eqn:E.
  - assert (Hs : nth_error p_month_count (Z.to_nat i) <> None) by congruence.
    apply nth_error_Some in Hs. simpl in Hs. lia.
  - eexists. reflexivity.
Qed.

Lemma month_index (m : Z) :
  in_int m -> (0 <= (m - 1)%go <= 11 <-> 1 <= m <= 12).
Proof.
  unfold in_int, min_int, max_int. intros Hm. unfold sub.
  destruct (Z.eq_dec m (-9223372036854775808)) as [-> | Hne].
  - vm_compute. split; intros [H1 H2]; exfalso; [apply H2 | apply H1]; reflexivity.
  - rewrite wrap_small by (unfold in_int, min_int, max_int; lia). lia.
Qed.

Lemma norm_day_panics (t : Time) :
  in_int (month t) -> (is_panic (norm_day t) <-> ~ 1 <= month t <= 12).
Proof.
  intros Hi. split.
  - intros Hp Hm. destruct (norm_day_ok t Hm) as [last [_ [_ Hn]]].
    rewrite Hn in Hp. now apply Ok_not_panic in Hp.
  - intros Hm. unfold norm_day.
    destruct (index_table_panics (month t - 1)%go) as [msg Hmsg].
    + rewrite month_index by assumption. exact Hm.
    + rewrite Hmsg. eexists. reflexivity.
Qed.

Lemma norm_day_then_reset_panics (u : Time) :
  in_int (month u) ->
  (is_panic (v <- norm_day u ;; resetWeekday v)
   <-> ~ 1 <= month u <= 12 \/ loc u = None).
Proof.
  intros Hu.
  destruct (Z_le_dec 1 (month u)) as [H1 | H1];
    [destruct (Z_le_dec (month u) 12) as [H12 | H12] |].
  - destruct (norm_day_ok u (conj H1 H12)) as [last [_ [_ Hn]]].
    rewrite Hn. cbn [bind].
    set (v := mkTime _ _ _ _ _ _ _ _ _).
    assert (Hlv : loc v = loc u) by reflexivity.
    clearbody v. clear Hn.
    destruct (loc u) as [l |] eqn:Hl.
    + destruct (resetWeekday_ok v l Hlv) as [g [_ Hr]]. rewrite Hr.
      split.
      * intros Hp. now apply Ok_not_panic in Hp.
      * intros [Hm | Hm]; [lia | discriminate].
    + split; [intros _; right; reflexivity |]. intros _.
      unfold resetWeekday.
      destruct (ToTime_panics v Hlv) as [msg Hmsg]. rewrite Hmsg.
      eexists. reflexivity.
  - assert (Hm : ~ 1 <= month u <= 12) by lia.
    split; [intros _; left; exact Hm |]. intros _.
    apply norm_day_panics in Hm; [| assumption].
    destruct Hm as [msg Hmsg]. rewrite Hmsg. eexists. reflexivity.
  - assert (Hm : ~ 1 <= month u <= 12) by lia.
    split; [intros _; left; exact Hm |]. intros _.
    apply norm_day_panics in Hm; [| assumption].
    destruct Hm as [msg Hmsg]. rewrite Hmsg. eexists. reflexivity.
Qed.

(** X2.  [SetYear] and [SetDay] index the month table without
    normalising the month: they panic exactly when the month of the
    receiver is outside 1..12 (as in the zero value [Time{}]) or its
    location is nil.  [SetMonth] saturates the month first and panics
    exactly when the location is nil. *)
Theorem date_setters_panic (t : Time) (x : Z) :
  in_int (month t) ->
  (is_panic (SetYear t x) <-> ~ 1 <= month t <= 12 \/ loc t = None)
  /\ (is_panic (SetDay t x) <-> ~ 1 <= month t <= 12 \/ loc t = None)
  /\ (is_panic (SetMonth t x) <-> loc t = None).
Proof.
  intros Hi. destruct t as [y m d h mi s ns l w].
  cbn [month loc] in *.
  split; [| split].
  - unfold SetYear. cbn [year month day hour min sec nsec loc wday].
    rewrite norm_day_then_reset_panics by exact Hi. reflexivity.
  - unfold SetDay. cbn [year month day hour min sec nsec loc wday].
    rewrite norm_day_then_reset_panics by exact Hi. reflexivity.
  - unfold SetMonth, norm_month.
    cbn [year month day hour min sec nsec loc wday].
    pose proof (between_bounds x 1 12) as B.
    rewrite norm_day_then_reset_panics
      by (cbn [month]; unfold in_int, min_int, max_int; lia).
    cbn [month loc].
    split; [intros [H | H]; [lia | exact H] | intros H; right; exact H].
Qed.

Lemma date_setters_panic_witness :
  is_panic (SetDay zero 1) /\ is_panic (SetMonth zero 1).
Proof.
  assert (Hi : in_int (month zero))
    by (unfold in_int, min_int, max_int; simpl; lia).
  destruct (date_setters_panic zero 1 Hi) as [_ [Hd Hm]].
  split.
  - apply Hd. right. reflexivity.
  - apply Hm. reflexivity.
Defined.

(** [Set] on a valid date and clock: [norm] changes nothing, and the
    weekday is the one of the exported host time. *)
Lemma Set_valid_arguments (t0 : Time) (y m d h mi s ns : Z)
      (l : gotime.Location) :
  valid_date (mkTime y m d h mi s ns (Some l) 0) ->
  valid_clock (mkTime y m d h mi s ns (Some l) 0) ->
  exists w,
    Set_ t0 y m d h mi s ns (Some l) = Ok (mkTime y m d h mi s ns (Some l) w)
    /\ valid_date (mkTime y m d h mi s ns (Some l) w)
    /\ weekday_consistent (mkTime y m d h mi s ns (Some l) w).
Proof.
  intros Hd Hc. unfold Set_.
  set (r := mkTime y m d h mi s ns (Some l) (wday t0)).
  destruct (resetWeekday_ok r l eq_refl) as [g [Hg Hr]].
  rewrite Hr. cbn [bind]. subst r.
  cbn [year month day hour min sec nsec loc wday] in *.
  set (w := getWeekday (gotime.Weekday g)).
  assert (Hd' : valid_date (mkTime y m d h mi s ns (Some l) w)).
  { destruct Hd as [Hm [last [Hlast Hday]]]. split; [exact Hm |].
    exists last. split; [| exact Hday].
    rewrite <- Hlast. apply daysInMonth_ext; reflexivity. }
  exists w. split; [| split].
  - apply norm_valid; assumption.
  - exact Hd'.
  - exists g. split; [| reflexivity].
    rewrite <- Hg. apply ToTime_ext; reflexivity.
Qed.

(** X3.  On arguments that are already a valid date and clock, [Date]
    returns exactly these fields, and the weekday it caches is the one of
    the exported host time. *)
Theorem Date_valid_arguments (y m d h mi s ns : Z) (l : gotime.Location) :
  valid_date (mkTime y m d h mi s ns (Some l) 0) ->
  valid_clock (mkTime y m d h mi s ns (Some l) 0) ->
  exists w,
    Date y m d h mi s ns (Some l) = Ok (mkTime y m d h mi s ns (Some l) w)
    /\ valid_date (mkTime y m d h mi s ns (Some l) w)
    /\ weekday_consistent (mkTime y m d h mi s ns (Some l) w).
Proof.
  intros Hd Hc. rewrite Date_Set. apply Set_valid_arguments; assumption.
Qed.

Lemma Date_valid_arguments_witness :
  exists w,
    Date 1395 1 1 12 0 0 0 (Some Iran)
    = Ok (mkTime 1395 1 1 12 0 0 0 (Some Iran) w).
Proof.
  assert (Hd : valid_date (mkTime 1395 1 1 12 0 0 0 (Some Iran) 0)).
  { split; [simpl; lia |]. exists 31. split; [reflexivity | simpl; lia]. }
  assert (Hc : valid_clock (mkTime 1395 1 1 12 0 0 0 (Some Iran) 0)).
  { unfold valid_clock. simpl. lia. }
  destruct (Date_valid_arguments 1395 1 1 12 0 0 0 Iran Hd Hc) as [w [H _]].
  exists w. exact H.
Defined.

Lemma Date_sound (y m d h mi s ns : Z) (l : gotime.Location) :
  valid_date (mkTime y m d h mi s ns (Some l) 0) ->
  valid_clock (mkTime y m d h mi s ns (Some l) 0) ->
  exists t,
    Date y m d h mi s ns (Some l) = Ok t /\ sound t
    /\ year t = y /\ month t = m /\ day t = d.
Proof.
  intros Hd Hc.
  rewrite Date_Set.
  destruct (Set_valid_arguments zero y m d h mi s ns l Hd Hc)
    as [w [H [Hv Hw]]].
  eexists. split; [exact H |]. split; [| repeat split].
  split; [exact Hv |]. split; [exact Hc | exact Hw].
Qed.

End NormFacts.

(* ================================================================== *)
(** ** Weekdays and the 12-hour clock *)
(* ================================================================== *)

Module ClockFacts.

Import GoInt GoIntFacts ptime Vocabulary Invariants.

Lemma getWeekday_shift (wd : Z) :
  0 <= wd <= 6 -> getWeekday wd = (wd + 1) mod 7.
Proof.
  intros H.
  assert (Hc : wd = 0 \/ wd = 1 \/ wd = 2 \/ wd = 3 \/ wd = 4 \/ wd = 5
               \/ wd = 6) by lia.
  repeat (destruct Hc as [-> | Hc]; [reflexivity |]). subst wd. reflexivity.
Qed.

(** The weekday [SetTime] caches, from the host's day count. *)
Lemma SetTime_wday (pt : Time) (g : gotime.Time) :
  wday (SetTime pt g) = (gotime.local_day g + 5) mod 7.
Proof.
  assert (Hw : wday (SetTime pt g) = getWeekday (gotime.Weekday g)).
  { unfold SetTime. destruct (gotime.YMD g) as [[gy gm] gd].
    destruct (SetTime_ymd _) as [[y m] d]. reflexivity. }
  pose proof (Z.mod_pos_bound (gotime.local_day g + gotime.Thursday) 7 eq_refl) as Hb.
  rewrite Hw, getWeekday_shift by (unfold gotime.Weekday; lia).
  unfold gotime.Weekday, gotime.Thursday.
  rewrite Zplus_mod_idemp_l. f_equal. lia.
Qed.

(** X4.  [getWeekday] moves the host's Sunday-based weekday to the
    Saturday-based one: the weekday [SetTime] caches is
    [(local day + 5) mod 7], and every result of [getWeekday] lies between
    [Shanbe] and [Jomeh]. *)
Theorem SetTime_weekday (pt : Time) (g : gotime.Time) (wd : Z) :
  wday (SetTime pt g) = (gotime.local_day g + 5) mod 7
  /\ Shanbe <= wday (SetTime pt g) <= Jomeh
  /\ Shanbe <= getWeekday wd <= Jomeh.
Proof.
  pose proof (SetTime_wday pt g) as H1.
  split; [exact H1 |]. split.
  - rewrite H1. unfold Shanbe, Jomeh.
    pose proof (Z.mod_pos_bound (gotime.local_day g + 5) 7 eq_refl). lia.
  - unfold getWeekday, Shanbe, Yekshanbe, Doshanbe, Seshanbe, Charshanbe,
      Panjshanbe, Jomeh.
    repeat match goal with
           | |- context [if ?c then _ else _] => destruct c
           end; lia.
Qed.

(** X5.  What [Format] prints for the tokens [hh] and [kk]: for an hour
    in [[0, 23]], [modifyHour (Hour12 t) 12] lies in [[1, 12]] and is 12
    exactly at hours 0 and 12; [modifyHour (hour t) 24] lies in [[1, 24]]
    and is 24 exactly at hour 0. *)
Theorem hour_tokens (t : Time) :
  0 <= hour t <= 23 ->
  1 <= modifyHour (Hour12 t) 12 <= 12
  /\ 1 <= modifyHour (hour t) 24 <= 24
  /\ (modifyHour (Hour12 t) 12 = 12 <-> hour t = 0 \/ hour t = 12)
  /\ (modifyHour (hour t) 24 = 24 <-> hour t = 0).
Proof.
  intros Hh.
  assert (Hsub : (hour t - 12)%go = hour t - 12).
  { unfold sub. apply wrap_small. unfold in_int, min_int, max_int. lia. }
  unfold modifyHour, Hour12. rewrite Hsub.
  destruct (Z.leb_spec 12 (hour t));
    destruct (Z.eqb_spec (hour t - 12) 0);
    destruct (Z.eqb_spec (hour t) 0); lia.
Qed.

Lemma hour_tokens_witness :
  modifyHour (Hour12 noon) 12 = 12.
Proof.
  assert (Hh : 0 <= hour noon <= 23) by (simpl; lia).
  destruct (hour_tokens noon Hh) as [_ [_ [H _]]].
  apply H. right. reflexivity.
Defined.

End ClockFacts.

(* ================================================================== *)
(** ** The 33-year cycle of [IsLeap] *)
(* ================================================================== *)

Module LeapCycle.

Import GoInt GoIntFacts ptime Vocabulary LeapRule.

Lemma IsLeap_exact (y : Z) :
  in_int (25 * y + 11) ->
  IsLeap (of_year y) = ((25 * y + 11) mod 33 <? 8).
Proof.
  intros H. unfold IsLeap. cbn [year of_year].
  rewrite IsLeap_numerator by assumption.
  rewrite divider_33; [reflexivity | assumption | lia].
Qed.

Lemma IsLeap_residue (y r : Z) :
  in_int (25 * y + 11) -> in_int (25 * r + 11) ->
  y mod 33 = r mod 33 ->
  IsLeap (of_year y) = IsLeap (of_year r).
Proof.
  intros Hy Hr E. rewrite !IsLeap_exact by assumption.
  f_equal. Z.div_mod_to_equations. lia.
Qed.

Lemma leap_count_residue (n : nat) :
  forall y r : Z,
    - 200000000000000000 <= y <= 200000000000000000 - Z.of_nat n ->
    0 <= r <= 100 - Z.of_nat n ->
    y mod 33 = r mod 33 ->
    leap_count y n = leap_count r n.
Proof.
  induction n as [| n IH]; intros y r Hy Hr E; [reflexivity |].
  cbn [leap_count].
  rewrite (IsLeap_residue y r); try (unfold in_int, min_int, max_int; lia);
    try exact E.
  f_equal. apply IH; try lia.
  Z.div_mod_to_equations. lia.
Qed.

Lemma leap_count_base (r : Z) : 0 <= r <= 32 -> leap_count r 33 = 8%nat.
Proof.
  intros H.
  assert (Hc : r = 0 \/ r = 1 \/ r = 2 \/ r = 3 \/ r = 4 \/ r = 5 \/ r = 6
               \/ r = 7 \/ r = 8 \/ r = 9 \/ r = 10 \/ r = 11 \/ r = 12
               \/ r = 13 \/ r = 14 \/ r = 15 \/ r = 16 \/ r = 17 \/ r = 18
               \/ r = 19 \/ r = 20 \/ r = 21 \/ r = 22 \/ r = 23 \/ r = 24
               \/ r = 25 \/ r = 26 \/ r = 27 \/ r = 28 \/ r = 29 \/ r = 30
               \/ r = 31 \/ r = 32) by lia.
  repeat (destruct Hc as [-> | Hc]; [vm_compute; reflexivity |]).
  subst r. vm_compute. reflexivity.
Qed.

(** X6.  Away from wrap-around, [IsLeap] has period 33; any 33
    consecutive years hold exactly 8 leap years; and after a leap year
    the next three years are common and the fourth or the fifth is
    leap. *)
Theorem IsLeap_cycle (y : Z) :
  - 100000000000000000 <= y <= 100000000000000000 ->
  IsLeap (of_year (y + 33)) = IsLeap (of_year y)
  /\ leap_count y 33 = 8%nat
  /\ (IsLeap (of_year y) = true ->
      IsLeap (of_year (y + 1)) = false
      /\ IsLeap (of_year (y + 2)) = false
      /\ IsLeap (of_year (y + 3)) = false
      /\ (IsLeap (of_year (y + 4)) = true
          \/ IsLeap (of_year (y + 5)) = true)).
Proof.
  intros Hy.
  assert (Hr : forall k, 0 <= k <= 33 -> in_int (25 * (y + k) + 11))
    by (intros k Hk; unfold in_int, min_int, max_int; lia).
  split; [| split].
  - apply IsLeap_residue; try (apply Hr; lia).
    + replace y with (y + 0) at 1 by lia. apply Hr. lia.
    + Z.div_mod_to_equations. lia.
  - pose proof (Z.mod_pos_bound y 33 eq_refl) as Hb.
    rewrite (leap_count_residue 33 y (y mod 33)).
    + apply leap_count_base. lia.
    + lia.
    + lia.
    + symmetry. apply Z.mod_mod. lia.
  - rewrite !IsLeap_exact by (try (apply Hr; lia);
                               replace y with (y + 0) by lia; apply Hr; lia).
    rewrite !Z.ltb_lt, !Z.ltb_ge.
    intros H. Z.div_mod_to_equations. lia.
Qed.

Lemma IsLeap_cycle_witness :
  IsLeap (of_year (1403 + 33)) = IsLeap (of_year 1403)
  /\ leap_count 1403 33 = 8%nat.
Proof.
  assert (Hy : - 100000000000000000 <= 1403 <= 100000000000000000) by lia.
  destruct (IsLeap_cycle 1403 Hy) as [H1 [H2 _]].
  split; [exact H1 | exact H2].
Defined.

End LeapCycle.

(* ================================================================== *)
(** ** Day and week counters *)
(* ================================================================== *)

Module Counters.

Import GoInt GoIntFacts ptime Vocabulary Invariants PersianCycle NormFacts.

(** The rows of [p_month_count]: the last day of the month in a common
    and in a leap year, and the days before the month, which are the
    offsets [getJdn] computes. *)
Lemma table_row (m : Z) :
  1 <= m <= 12 ->
  index p_month_count (m - 1)%go
  = Ok [ if m <=? 6 then 31 else if m <=? 11 then 30 else 29;
         if m <=? 6 then 31 else 30;
         month_offset m ].
Proof.
  intros Hm.
  assert (Hc : m = 1 \/ m = 2 \/ m = 3 \/ m = 4 \/ m = 5 \/ m = 6 \/ m = 7
               \/ m = 8 \/ m = 9 \/ m = 10 \/ m = 11 \/ m = 12) by lia.
  repeat (destruct Hc as [-> | Hc]; [reflexivity |]). subst m. reflexivity.
Qed.

(** Day counters of a valid date: [YearDay] is the days before the month
    plus the day, [RYearDay] the rest of the year, [RMonthDay] the rest of
    the month. *)
Lemma day_counters_exact (t : Time) :
  valid_date t ->
  exists last,
    daysInMonth t = Ok last
    /\ YearDay t = Ok (month_offset (month t) + day t)
    /\ 1 <= month_offset (month t) + day t
         <= (if IsLeap t then 366 else 365)
    /\ RYearDay t = Ok ((if IsLeap t then 366 else 365)
                        - (month_offset (month t) + day t))
    /\ RMonthDay t = Ok (last - day t)
    /\ 0 <= last - day t <= 30
    /\ 1 <= day t <= 31.
Proof.
  intros [Hm [last [Hlast Hd]]].
  exists last.
  split; [exact Hlast |].
  unfold daysInMonth in Hlast.
  rewrite (table_row (month t) Hm) in Hlast. cbn [bind] in Hlast.
  assert (I0 : forall a b c : Z, index [a; b; c] 0 = Ok a) by reflexivity.
  assert (I1 : forall a b c : Z, index [a; b; c] 1 = Ok b) by reflexivity.
  assert (I2 : forall a b c : Z, index [a; b; c] 2 = Ok c) by reflexivity.
  assert (Hoff : 0 <= month_offset (month t) <= 336 /\
                 (month t <= 6 -> month_offset (month t) <= 155) /\
                 (month t <= 11 -> month_offset (month t) <= 306)).
  { unfold month_offset. destruct (Z.leb_spec (month t) 7); lia. }
  assert (Hbnd : 1 <= month_offset (month t) + day t
                      <= (if IsLeap t then 366 else 365)
                 /\ 0 <= last - day t <= 30 /\ 1 <= day t <= 31).
  { destruct (IsLeap t); [rewrite I1 in Hlast | rewrite I0 in Hlast];
      injection Hlast as <-;
      destruct (Z.leb_spec (month t) 6); destruct (Z.leb_spec (month t) 11);
      lia. }
  destruct Hbnd as [Hyd [Hrm Hd31]].
  assert (HY : YearDay t = Ok (month_offset (month t) + day t)).
  { unfold YearDay. rewrite (table_row (month t) Hm). cbn [bind].
    rewrite I2. cbn [bind]. f_equal. unwrap. reflexivity. }
  assert (HR : RYearDay t
               = Ok ((if IsLeap t then 366 else 365)
                     - (month_offset (month t) + day t))).
  { unfold RYearDay. rewrite HY. cbn [bind]. f_equal.
    destruct (IsLeap t); unwrap; reflexivity. }
  assert (HM : RMonthDay t = Ok (last - day t)).
  { unfold RMonthDay. rewrite (table_row (month t) Hm). cbn [bind].
    rewrite Hlast. cbn [bind]. f_equal. unwrap. reflexivity. }
  repeat (split; [assumption |]). exact Hd31.
Qed.

(** X7.  For a valid date none of the counters panics: [YearDay] is the
    days before the month plus the day and lies in [[1, 365]] (366 in a
    leap year); [RYearDay] is the rest of the year; [RMonthDay] the rest
    of the month, between 0 and 30; the week counters are these divided
    by 7, and [MonthWeek] lies in [[0, 4]]. *)
Theorem day_counters (t : Time) :
  valid_date t ->
  exists last yd,
    daysInMonth t = Ok last
    /\ YearDay t = Ok yd
    /\ yd = month_offset (month t) + day t
    /\ 1 <= yd <= (if IsLeap t then 366 else 365)
    /\ RYearDay t = Ok ((if IsLeap t then 366 else 365) - yd)
    /\ RMonthDay t = Ok (last - day t)
    /\ 0 <= last - day t <= 30
    /\ YearWeek t = Ok (yd / 7)
    /\ RYearWeek t = Ok (((if IsLeap t then 366 else 365) - yd) / 7)
    /\ RMonthWeek t = Ok ((last - day t) / 7)
    /\ MonthWeek t = day t / 7
    /\ 0 <= MonthWeek t <= 4.
Proof.
  intros Hv.
  destruct (day_counters_exact t Hv)
    as [last [Hlast [HY [Hyd [HR [HM [Hrm Hd31]]]]]]].
  exists last, (month_offset (month t) + day t).
  assert (Q : forall z, 0 <= z <= 400 -> (z / 7)%go = z / 7).
  { intros z Hz. unfold quo. rewrite Z.quot_div_nonneg by lia.
    apply wrap_small. in_range. }
  split; [exact Hlast |].
  split; [exact HY |]. split; [reflexivity |]. split; [exact Hyd |].
  split; [exact HR |]. split; [exact HM |]. split; [exact Hrm |].
  split; [unfold YearWeek; rewrite HY; cbn [bind]; rewrite Q;
          [reflexivity | destruct (IsLeap t); lia] |].
  split; [unfold RYearWeek; rewrite HR; cbn [bind]; rewrite Q;
          [reflexivity | destruct (IsLeap t); lia] |].
  split; [unfold RMonthWeek; rewrite HM; cbn [bind]; rewrite Q;
          [reflexivity | lia] |].
  unfold MonthWeek. rewrite Q by lia.
  split; [reflexivity |]. Z.div_mod_to_equations. lia.
Qed.

Lemma day_counters_witness :
  YearDay farvardin_1 = Ok 1 /\ RYearDay farvardin_1 = Ok 365.
Proof.
  assert (Hv : valid_date farvardin_1).
  { split; [simpl; lia |]. exists 31. split; [reflexivity | simpl; lia]. }
  destruct (day_counters farvardin_1 Hv)
    as [last [yd [_ [HY [Hyd [_ [HR _]]]]]]].
  subst yd. split; [exact HY | exact HR].
Defined.

(** X8.  The table and the formula agree: for a valid date of the years
    475 to 3000, [YearDay] is the distance [getJdn] puts between the day
    and Farvardin 1 of its year, plus one. *)
Theorem YearDay_getJdn (t : Time) :
  475 <= year t <= 3000 -> valid_date t ->
  YearDay t
  = Ok (getJdn (year t) (month t) (day t) - getJdn (year t) 1 1 + 1).
Proof.
  intros Hy Hv.
  destruct (day_counters_exact t Hv) as [last [Hlast [HY [Hr [_ [_ [Hb _]]]]]]].
  destruct Hv as [Hm [last' [Hl' Hd]]].
  assert (last' = last) by congruence. subst last'.
  destruct (daysInMonth_ok t Hm) as [last2 [Hl2 Hb2]].
  assert (last2 = last) by congruence. subst last2.
  rewrite HY.
  rewrite !getJdn_exact by lia.
  f_equal. replace (month_offset 1) with 0 by reflexivity. lia.
Qed.

Lemma YearDay_getJdn_witness :
  YearDay farvardin_1 = Ok (getJdn 1395 1 1 - getJdn 1395 1 1 + 1).
Proof.
  apply (YearDay_getJdn farvardin_1).
  - simpl. lia.
  - split; [simpl; lia |]. exists 31. split; [reflexivity | simpl; lia].
Defined.

(** X9.  From a moment that has the invariants, [FirstMonthDay],
    [LastMonthDay], [FirstYearDay] and [LastYearDay] return moments that
    have them too, in the same year (and month), on day 1, on the day
    with no day left in the month, on Farvardin 1 and on the day of
    Esfand with no day left in the year. *)
Theorem month_and_year_ends (t : Time) :
  sound t ->
  exists a b c d,
    FirstMonthDay t = Ok a /\ LastMonthDay t = Ok b
    /\ FirstYearDay t = Ok c /\ LastYearDay t = Ok d
    /\ sound a /\ sound b /\ sound c /\ sound d
    /\ year a = year t /\ month a = month t /\ day a = 1
    /\ year b = year t /\ month b = month t /\ RMonthDay b = Ok 0
    /\ year c = year t /\ month c = Farvardin /\ day c = 1
    /\ year d = year t /\ month d = Esfand /\ RYearDay d = Ok 0.
Proof.
  intros Hs.
  pose proof Hs as [Hv [Hc Hw]].
  destruct (weekday_consistent_located t Hw) as [l Hl].
  destruct t as [y m dd h mi s ns lo w].
  cbn [loc] in Hl. subst lo.
  pose proof Hv as [Hm [last [Hlast Hd]]].
  cbn [year month day hour min sec nsec loc] in *.
  destruct (daysInMonth_ok (mkTime y m dd h mi s ns (Some l) w) Hm)
    as [last2 [Hl2 Hb2]].
  assert (last2 = last) by congruence. subst last2.
  assert (Hclock : forall y' m' d' w', valid_clock (mkTime y' m' d' h mi s ns (Some l) w')).
  { intros. exact Hc. }
  (* the four target dates are valid *)
  assert (Va : valid_date (mkTime y m 1 h mi s ns (Some l) 0)).
  { split; [exact Hm |]. exists last. split; [| cbn [day]; lia].
    rewrite <- Hlast. apply daysInMonth_ext; reflexivity. }
  assert (Vb : valid_date (mkTime y m last h mi s ns (Some l) 0)).
  { split; [exact Hm |]. exists last. split; [| cbn [day]; lia].
    rewrite <- Hlast. apply daysInMonth_ext; reflexivity. }
  assert (H1 : 1 <= 1 <= 12) by lia.
  assert (H12 : 1 <= 12 <= 12) by lia.
  destruct (daysInMonth_ok (mkTime y 1 1 h mi s ns (Some l) 0) H1) as [l1 [Hl1 Hb1]].
  assert (Vc : valid_date (mkTime y Farvardin 1 h mi s ns (Some l) 0)).
  { split; [exact H1 |]. exists l1. split; [exact Hl1 | cbn [day]; lia]. }
  destruct (daysInMonth_ok (mkTime y 12 1 h mi s ns (Some l) 0) H12) as [l12 [Hl12 Hb12]].
  assert (Vd : valid_date (mkTime y Esfand l12 h mi s ns (Some l) 0)).
  { split; [exact H12 |]. exists l12. split; [| cbn [day]; lia].
    rewrite <- Hl12. apply daysInMonth_ext; reflexivity. }
  destruct (Date_sound y m 1 h mi s ns l Va (Hclock _ _ _ _)) as [a [Ha [Sa [Ya [Ma Da]]]]].
  destruct (Date_sound y m last h mi s ns l Vb (Hclock _ _ _ _)) as [b [Hb [Sb [Yb [Mb Db]]]]].
  destruct (Date_sound y Farvardin 1 h mi s ns l Vc (Hclock _ _ _ _)) as [c [Hcc [Sc [Yc [Mc Dc]]]]].
  destruct (Date_sound y Esfand l12 h mi s ns l Vd (Hclock _ _ _ _)) as [d [Hdd [Sd [Yd [Md Dd]]]]].
  set (t := mkTime y m dd h mi s ns (Some l) w) in *.
  (* last day of Esfand as LastYearDay reads it *)
  assert (Hld : (row <- index p_month_count (Esfand - 1)%go ;;
                 index row (if IsLeap t then 1 else 0)) = Ok l12).
  { rewrite <- Hl12. unfold daysInMonth. reflexivity. }
  assert (RM : forall u, year u = y -> month u = m -> day u = last ->
                         RMonthDay u = Ok 0).
  { intros u Hy Hmu Hdu.
    assert (Vu : valid_date u).
    { split; [lia |]. exists last. split; [| lia].
      rewrite <- Hlast. apply daysInMonth_ext; assumption. }
    destruct (day_counters_exact u Vu) as [lu [Hlu [_ [_ [_ [HR _]]]]]].
    assert (lu = last).
    { assert (E : daysInMonth u = daysInMonth t) by (apply daysInMonth_ext; assumption).
      congruence. }
    subst lu. rewrite HR. f_equal. lia. }
  assert (RY : forall u, year u = y -> month u = Esfand -> day u = l12 ->
                         RYearDay u = Ok 0).
  { intros u Hy Hmu Hdu.
    assert (Vu : valid_date u).
    { split; [unfold Esfand in Hmu; lia |]. exists l12. split; [| lia].
      rewrite <- Hl12. apply daysInMonth_ext; assumption. }
    destruct (day_counters_exact u Vu) as [lu [Hlu [_ [_ [HR _]]]]].
    rewrite HR. f_equal. rewrite Hmu, Hdu.
    assert (El : daysInMonth u = Ok l12)
      by (rewrite <- Hl12; apply daysInMonth_ext; assumption).
    unfold daysInMonth in El. rewrite Hmu in El.
    replace (month_offset Esfand) with 336 by reflexivity.
    destruct (IsLeap u); cbn in El; injection El as <-; reflexivity. }
  assert (Ea : exists a', FirstMonthDay t = Ok a' /\ sound a'
                          /\ year a' = y /\ month a' = m /\ day a' = 1).
  { unfold FirstMonthDay. cbn [year month day hour min sec nsec loc t].
    destruct (Z.eqb_spec dd 1) as [-> | _];
      first [ solve [eauto 10]
          | exists t; split; [reflexivity |]; split; [exact Hs |];
            repeat split ]. }
  assert (Eb : exists b', LastMonthDay t = Ok b' /\ sound b'
                          /\ year b' = y /\ month b' = m /\ day b' = last).
  { unfold LastMonthDay. unfold daysInMonth in Hlast.
    destruct (index p_month_count (month t - 1)%go) as [row |]; [| discriminate].
    cbn [bind] in *. rewrite Hlast. cbn [bind].
    cbn [year month day hour min sec nsec loc t].
    destruct (Z.eqb_spec last dd) as [-> | _];
      first [ solve [eauto 10]
          | exists t; split; [reflexivity |]; split; [exact Hs |];
            repeat split ]. }
  assert (Ec : exists c', FirstYearDay t = Ok c' /\ sound c'
                          /\ year c' = y /\ month c' = Farvardin /\ day c' = 1).
  { unfold FirstYearDay. cbn [year month day hour min sec nsec loc t].
    destruct (Z.eqb_spec m Farvardin) as [-> | _];
      destruct (Z.eqb_spec dd 1) as [-> | _]; cbn [andb];
      first [ solve [eauto 10]
          | exists t; split; [reflexivity |]; split; [exact Hs |];
            repeat split ]. }
  assert (Ed : exists d', LastYearDay t = Ok d' /\ sound d'
                          /\ year d' = y /\ month d' = Esfand /\ day d' = l12).
  { unfold LastYearDay.
    destruct (index p_month_count (Esfand - 1)%go) as [row |]; [| discriminate].
    cbn [bind] in *. rewrite Hld. cbn [bind].
    cbn [year month day hour min sec nsec loc t].
    destruct (Z.eqb_spec m Esfand) as [-> | _];
      destruct (Z.eqb_spec dd l12) as [-> | _]; cbn [andb];
      first [ solve [eauto 10]
          | exists t; split; [reflexivity |]; split; [exact Hs |];
            repeat split ]. }
  destruct Ea as [a' [Ea [Sa' [Ya' [Ma' Da']]]]].
  destruct Eb as [b' [Eb [Sb' [Yb' [Mb' Db']]]]].
  destruct Ec as [c' [Ec [Sc' [Yc' [Mc' Dc']]]]].
  destruct Ed as [d' [Ed [Sd' [Yd' [Md' Dd']]]]].
  exists a', b', c', d'.
  repeat (split; [assumption |]).
  split; [apply RM; assumption |].
  repeat (split; [assumption |]).
  apply RY; assumption.
Qed.

End Counters.

(* ================================================================== *)
(** ** Locations *)
(* ================================================================== *)

Module Zones.

Import GoInt GoIntFacts ptime Vocabulary Invariants.

(** The instant [time.Date] returns is the local reading minus the offset
    of the zone. *)
Lemma gotime_Date_offset (y m d h mi s ns : Z) :
  exists x n,
    forall l : gotime.Location,
      gotime.Date y m d h mi s ns (Some l)
      = Ok (gotime.mkTime (x - gotime.zone_offset l) n l).
Proof.
  unfold gotime.Date, gotime.norm. eexists. eexists. intros l. reflexivity.
Qed.



End Zones.

(* ================================================================== *)
(** ** From a day number to the Persian date and back *)
(* ================================================================== *)

Module PersianInverse.

Import GoInt GoIntFacts ptime Vocabulary Invariants PersianCycle.

Lemma year_start_succ (y : Z) : year_start (y + 1) = year_start y + year_days y.
Proof. unfold year_days. lia. Qed.

(** Every day number of the range lies in a year. *)
Lemma locate_year (n : nat) (jdn : Z) :
  year_start 475 < jdn <= year_start (475 + Z.of_nat n) ->
  exists y,
    475 <= y < 475 + Z.of_nat n /\ year_start y < jdn <= year_start (y + 1).
Proof.
  induction n as [| n IH]; intros H.
  - simpl in H. replace (475 + 0) with 475 in H by lia. lia.
  - destruct (Z_le_gt_dec jdn (year_start (475 + Z.of_nat n))) as [Hle | Hgt].
    + destruct IH as [y [Hy Hj]]; [lia |]. exists y. split; [lia | exact Hj].
    + exists (475 + Z.of_nat n). split; [lia |].
      replace (475 + Z.of_nat n + 1) with (475 + Z.of_nat (S n)) by lia. lia.
Qed.

(** Every day of a year is a day of one of its months. *)
Lemma locate_month (len t : Z) :
  365 <= len <= 366 -> 1 <= t <= len ->
  exists m d,
    1 <= m <= 12 /\ 1 <= d
    /\ d <= (if m <=? 6 then 31 else if m <=? 11 then 30 else len - 336)
    /\ t = d + month_offset m.
Proof.
  intros Hlen Ht.
  destruct (Z_le_gt_dec t 186) as [H1 | H1].
  - exists ((t - 1) / 31 + 1), (t - ((t - 1) / 31) * 31).
    assert (Hq : 0 <= (t - 1) / 31 <= 5) by (Z.div_mod_to_equations; lia).
    assert (Hm6 : ((t - 1) / 31 + 1 <=? 6) = true) by (apply Z.leb_le; lia).
    rewrite Hm6. unfold month_offset.
    assert (Hm7 : ((t - 1) / 31 + 1 <=? 7) = true) by (apply Z.leb_le; lia).
    rewrite Hm7. Z.div_mod_to_equations. lia.
  - exists ((t - 7) / 30 + 1), (t - 6 - ((t - 7) / 30) * 30).
    assert (Hq : 6 <= (t - 7) / 30 <= 11) by (Z.div_mod_to_equations; lia).
    assert (Hm6 : ((t - 7) / 30 + 1 <=? 6) = false) by (apply Z.leb_gt; lia).
    rewrite Hm6. unfold month_offset.
    destruct (Z.leb_spec ((t - 7) / 30 + 1) 11);
      destruct (Z.leb_spec ((t - 7) / 30 + 1) 7);
      Z.div_mod_to_equations; lia.
Qed.

(** Every day number of the range is the day number of a date, and
    [SetTime] finds it. *)
Lemma locate_date (jdn : Z) :
  getJdn 475 1 1 <= jdn < getJdn 3001 1 1 ->
  exists y m d,
    SetTime_ymd jdn = (y, m, d)
    /\ 475 <= y <= 3000 /\ 1 <= m <= 12 /\ 1 <= d <= jdn_month_days y m
    /\ getJdn y m d = jdn.
Proof.
  intros H.
  rewrite !getJdn_exact in H by lia.
  replace (month_offset 1) with 0 in H by reflexivity.
  destruct (locate_year 2526 jdn) as [y [Hy Hj]].
  { replace (475 + Z.of_nat 2526) with 3001 by lia. lia. }
  rewrite year_start_succ in Hj.
  pose proof (year_days_range y) as Hlen.
  destruct (locate_month (year_days y) (jdn - year_start y) Hlen)
    as [m [d [Hm [Hd1 [Hd2 Ht]]]]]; [lia |].
  assert (Hyr : 475 <= y <= 3000) by lia.
  assert (Hjd : 1 <= d <= jdn_month_days y m).
  { unfold jdn_month_days. rewrite (jdn_year_days_exact y Hyr). lia. }
  assert (Hd31 : d <= 31).
  { revert Hd2. destruct (Z.leb_spec m 6); destruct (Z.leb_spec m 11); lia. }
  assert (Hg : getJdn y m d = jdn) by (rewrite getJdn_exact by lia; lia).
  exists y, m, d. split; [| repeat split; try lia].
  rewrite <- Hg. apply persian_round_trip_from_475; assumption.
Qed.

(** X12.  Every day number from Farvardin 1, 475 to the end of year
    3000 is read by [SetTime] as a date of that range with a month in
    1..12 and a day of the month as [getJdn] lays it out; [getJdn] gives
    the day number back, and gives it to no other date of the range. *)
Theorem SetTime_ymd_inverts (jdn : Z) :
  getJdn 475 1 1 <= jdn < getJdn 3001 1 1 ->
  exists y m d,
    SetTime_ymd jdn = (y, m, d)
    /\ 475 <= y <= 3000 /\ 1 <= m <= 12 /\ 1 <= d <= jdn_month_days y m
    /\ getJdn y m d = jdn
    /\ forall y' m' d',
         475 <= y' <= 3000 -> 1 <= m' <= 12 ->
         1 <= d' <= jdn_month_days y' m' ->
         getJdn y' m' d' = jdn -> (y', m', d') = (y, m, d).
Proof.
  intros H.
  destruct (locate_date jdn H) as [y [m [d [Hs [Hy [Hm [Hd Hg]]]]]]].
  exists y, m, d. repeat (split; [assumption |]).
  intros y' m' d' Hy' Hm' Hd' Hg'.
  rewrite <- Hs, <- Hg'. symmetry.
  apply persian_round_trip_from_475; assumption.
Qed.

Lemma SetTime_ymd_inverts_witness :
  exists y m d,
    SetTime_ymd 2457468 = (y, m, d) /\ getJdn y m d = 2457468.
Proof.
  assert (H : getJdn 475 1 1 <= 2457468 < getJdn 3001 1 1)
    by (vm_compute; split; [discriminate | reflexivity]).
  destruct (SetTime_ymd_inverts 2457468 H)
    as [y [m [d [H1 [_ [_ [_ [H5 _]]]]]]]].
  exists y, m, d. split; assumption.
Defined.

End PersianInverse.

(* ================================================================== *)
(** ** The Gregorian and Julian formulas *)
(* ================================================================== *)

Module GregorianCycle.

Import GoInt GoIntFacts ptime Vocabulary Invariants.

Lemma valid_gregorian_day (y m d : Z) :
  valid_gregorian y m d -> gregorian_day y m d.
Proof.
  unfold valid_gregorian, gregorian_days, gotime.isLeap, gregorian_day.
  intros [Hm Hd]. revert Hd.
  destruct (Z.eqb_spec m 2); destruct (Z.eqb_spec m 4);
    destruct (Z.eqb_spec m 6); destruct (Z.eqb_spec m 9);
    destruct (Z.eqb_spec m 11);
    destruct (Z.eqb_spec (y mod 4) 0); destruct (Z.eqb_spec (y mod 100) 0);
    destruct (Z.eqb_spec (y mod 400) 0); cbn; intros Hd; lia.
Qed.

Lemma gregorian_day_valid (y m d : Z) :
  gregorian_day y m d -> valid_gregorian y m d.
Proof.
  unfold valid_gregorian, gregorian_days, gotime.isLeap, gregorian_day.
  intros [Hm [Hd [H30 Hf]]]. split; [exact Hm |]. revert H30 Hf.
  destruct (Z.eqb_spec m 2); destruct (Z.eqb_spec m 4);
    destruct (Z.eqb_spec m 6); destruct (Z.eqb_spec m 9);
    destruct (Z.eqb_spec m 11);
    destruct (Z.eqb_spec (y mod 4) 0); destruct (Z.eqb_spec (y mod 100) 0);
    destruct (Z.eqb_spec (y mod 400) 0); cbn; intros H30 Hf; lia.
Qed.

Lemma gregorian_day_julian (y m d : Z) :
  gregorian_day y m d -> valid_julian y m d.
Proof. unfold gregorian_day, valid_julian. lia. Qed.

Lemma quot_march (m : Z) :
  1 <= m <= 12 -> Z.quot (m - 14) 12 = march_shift m /\ Z.quot (m - 9) 7 = march_shift m.
Proof.
  intros Hm. unfold march_shift.
  assert (Hc : m = 1 \/ m = 2 \/ m = 3 \/ m = 4 \/ m = 5 \/ m = 6 \/ m = 7
               \/ m = 8 \/ m = 9 \/ m = 10 \/ m = 11 \/ m = 12) by lia.
  repeat (destruct Hc as [-> | Hc]; [split; reflexivity |]).
  subst m. split; reflexivity.
Qed.

Lemma SetTime_jdn_after (y m d : Z) :
  1582 <= y <= 3000 -> 1 <= m <= 12 -> 1 <= d <= 31 ->
  (y = 1582 -> 10 < m \/ (m = 10 /\ 14 < d)) ->
  SetTime_jdn y m d
  = jdn_of_gregorian (y + 4800 + march_shift m) (m - 2 - 12 * march_shift m) d.
Proof.
  intros Hy Hm Hd Hc. unfold SetTime_jdn.
  assert (Hb : (1582 <? y) || ((y =? 1582) && (10 <? m))
               || ((y =? 1582) && (m =? 10) && (14 <? d)) = true).
  { destruct (Z.ltb_spec 1582 y); [reflexivity |].
    destruct (Z.eqb_spec y 1582); [| lia].
    destruct (Z.ltb_spec 10 m); [reflexivity |].
    destruct (Z.eqb_spec m 10); [| lia].
    destruct (Z.ltb_spec 14 d); [reflexivity | lia]. }
  rewrite Hb.
  destruct (quot_march m Hm) as [Ha _].
  assert (Hs : (m <= 2 /\ march_shift m = -1)
               \/ (3 <= m /\ march_shift m = 0))
    by (unfold march_shift; destruct (Z.leb_spec m 2); lia).
  unfold add, sub, mul, quo, rem.
  rewrite !(wrap_small (m - 14)) by in_range.
  rewrite !Ha.
  rewrite !(wrap_small (march_shift m)) by in_range.
  set (a := march_shift m) in *. clearbody a.
  unfold jdn_of_gregorian.
  replace (y + 4800 + a + 100) with (y + 4900 + a) by lia.
  exact_arith. reflexivity.
Qed.

Lemma SetTime_jdn_before (y m d : Z) :
  1 <= y <= 1582 -> 1 <= m <= 12 -> 1 <= d <= 31 ->
  (y = 1582 -> m < 10 \/ (m = 10 /\ d <= 14)) ->
  SetTime_jdn y m d = jdn_of_julian y m d.
Proof.
  intros Hy Hm Hd Hc. unfold SetTime_jdn.
  assert (Hb : (1582 <? y) || ((y =? 1582) && (10 <? m))
               || ((y =? 1582) && (m =? 10) && (14 <? d)) = false).
  { destruct (Z.ltb_spec 1582 y); [lia |].
    destruct (Z.eqb_spec y 1582); [| reflexivity].
    destruct (Z.ltb_spec 10 m); [lia |].
    destruct (Z.eqb_spec m 10); [| reflexivity].
    destruct (Z.ltb_spec 14 d); [lia | reflexivity]. }
  rewrite Hb.
  destruct (quot_march m Hm) as [_ Ha].
  assert (Hs : (m <= 2 /\ march_shift m = -1)
               \/ (3 <= m /\ march_shift m = 0))
    by (unfold march_shift; destruct (Z.leb_spec m 2); lia).
  unfold add, sub, mul, quo, rem.
  rewrite !(wrap_small (m - 9)) by in_range.
  rewrite !Ha.
  rewrite !(wrap_small (march_shift m)) by in_range.
  unfold jdn_of_julian.
  set (a := march_shift m) in *. clearbody a.
  exact_arith. reflexivity.
Qed.

Lemma Time_ymd_after (jdn : Z) :
  2299160 < jdn <= 4000000 -> Time_ymd jdn = gregorian_of_jdn jdn.
Proof.
  intros H. unfold Time_ymd.
  assert (Hb : (2299160 <? jdn) = true) by (apply Z.ltb_lt; lia).
  rewrite Hb. unfold gregorian_of_jdn. cbv zeta.
  exact_arith. reflexivity.
Qed.

Lemma Time_ymd_before (jdn : Z) :
  1721000 <= jdn <= 2299160 -> Time_ymd jdn = julian_of_jdn jdn.
Proof.
  intros H. unfold Time_ymd.
  assert (Hb : (2299160 <? jdn) = false) by (apply Z.ltb_ge; lia).
  rewrite Hb. unfold julian_of_jdn. cbv zeta.
  exact_arith. reflexivity.
Qed.

(** The Gregorian inversion, step by step: century, year of the century,
    month counted from March, day. *)
Lemma gregorian_round_trip_exact (y m d : Z) :
  1582 <= y <= 3000 -> gregorian_day y m d ->
  gregorian_of_jdn
    (jdn_of_gregorian (y + 4800 + march_shift m)
                      (m - 2 - 12 * march_shift m) d)
  = (y, m, d).
Proof.
  intros Hy [Hm [Hd [H30 Hf]]].
  set (Y := y + 4800 + march_shift m).
  set (M := m - 2 - 12 * march_shift m).
  assert (HY : 6000 <= Y <= 8000)
    by (subst Y; unfold march_shift; destruct (m <=? 2); lia).
  assert (HM : 1 <= M <= 12)
    by (subst M; unfold march_shift; destruct (Z.leb_spec m 2); lia).
  assert (HMm : (M <= 10 /\ m = M + 2 /\ y = Y - 4800)
                \/ (11 <= M /\ m = M - 10 /\ y = Y - 4799))
    by (subst M Y; unfold march_shift; destruct (Z.leb_spec m 2); lia).
  assert (H30' : M = 2 \/ M = 4 \/ M = 7 \/ M = 9 -> d <= 30) by lia.
  assert (Hf' : M = 12 ->
                d <= 28
                \/ (d = 29 /\ (Y + 1) mod 4 = 0
                    /\ ((Y + 1) mod 100 <> 0 \/ (Y + 1) mod 400 = 0))).
  { intros HM12. assert (Hm2 : m = 2) by lia.
    destruct (Hf Hm2) as [H28 | [H29 [H4 H100]]]; [left; exact H28 |].
    right. split; [exact H29 |].
    assert (Ey : Y + 1 = y + 4800) by lia. rewrite Ey.
    Z.div_mod_to_equations. lia. }
  clearbody Y M. clear Hf H30.
  unfold gregorian_of_jdn. cbv zeta.
  set (D := jdn_of_gregorian Y M d).
  assert (Hn : 4 * (D + 68569) / 146097 = Y / 100 + 1).
  { subst D. unfold jdn_of_gregorian. Z.div_mod_to_equations. lia. }
  rewrite Hn.
  set (l1 := D + 68569 - (146097 * (Y / 100 + 1) + 3) / 4).
  assert (Hi : 4000 * (l1 + 1) / 1461001 = Y mod 100).
  { subst l1 D. unfold jdn_of_gregorian. Z.div_mod_to_equations. lia. }
  rewrite Hi.
  set (l2 := l1 - 1461 * (Y mod 100) / 4 + 31).
  assert (Hj : 80 * l2 / 2447 = M).
  { subst l2 l1 D. unfold jdn_of_gregorian. Z.div_mod_to_equations. lia. }
  rewrite Hj.
  assert (Hday : l2 - 2447 * M / 80 = d).
  { subst l2 l1 D. unfold jdn_of_gregorian. Z.div_mod_to_equations. lia. }
  rewrite Hday.
  apply f_equal2; [apply f_equal2 |]; Z.div_mod_to_equations; lia.
Qed.

Lemma julian_round_trip_exact (y m d : Z) :
  1 <= y <= 1600 -> valid_julian y m d ->
  julian_of_jdn (jdn_of_julian y m d) = (y, m, d).
Proof.
  intros Hy [Hm [Hd [H30 Hf]]].
  unfold julian_of_jdn. cbv zeta.
  set (a := march_shift m).
  assert (Ha : (m <= 2 /\ a = -1) \/ (3 <= m /\ a = 0))
    by (subst a; unfold march_shift; destruct (Z.leb_spec m 2); lia).
  set (D := jdn_of_julian y m d).
  assert (Hk : (D + 1402 - 1) / 1461 = (y + 4716 + a) / 4).
  { subst D. unfold jdn_of_julian. fold a. clearbody a.
    Z.div_mod_to_equations. lia. }
  rewrite Hk.
  set (l := D + 1402 - 1461 * ((y + 4716 + a) / 4)).
  assert (Hn : (l - 1) / 365 - l / 1461 = (y + 4716 + a) mod 4).
  { subst l D. unfold jdn_of_julian. fold a. clearbody a.
    Z.div_mod_to_equations. lia. }
  rewrite Hn.
  set (i := l - 365 * ((y + 4716 + a) mod 4) + 30).
  assert (Hj : 80 * i / 2447 = m - 2 - 12 * a).
  { subst i l D. unfold jdn_of_julian. fold a. clearbody a.
    Z.div_mod_to_equations. lia. }
  rewrite Hj.
  assert (Hday : i - 2447 * (m - 2 - 12 * a) / 80 = d).
  { subst i l D. unfold jdn_of_julian. fold a. clearbody a.
    Z.div_mod_to_equations. lia. }
  rewrite Hday. clearbody a.
  apply f_equal2; [apply f_equal2 |]; Z.div_mod_to_equations; lia.
Qed.

Lemma jdn_of_gregorian_range (y m d : Z) :
  1582 <= y <= 3000 -> 1 <= m <= 12 -> 1 <= d <= 31 ->
  (y = 1582 -> 10 < m \/ (m = 10 /\ 14 < d)) ->
  2299160 < jdn_of_gregorian (y + 4800 + march_shift m)
                             (m - 2 - 12 * march_shift m) d
  <= 4000000.
Proof.
  intros Hy Hm Hd Hc. unfold jdn_of_gregorian, march_shift.
  destruct (Z.leb_spec m 2); Z.div_mod_to_equations; lia.
Qed.

Lemma jdn_of_julian_range (y m d : Z) :
  1 <= y <= 1582 -> 1 <= m <= 12 -> 1 <= d <= 31 ->
  (y = 1582 -> m < 10 \/ (m = 10 /\ d <= 4)) ->
  1721000 <= jdn_of_julian y m d <= 2299160.
Proof.
  intros Hy Hm Hd Hc. unfold jdn_of_julian, march_shift.
  destruct (Z.leb_spec m 2); Z.div_mod_to_equations; lia.
Qed.

(** Every day of the Julian calendar up to 1582-10-04 comes back. *)
Lemma julian_round_trip (y m d : Z) :
  1 <= y <= 1582 -> valid_julian y m d ->
  (y = 1582 -> m < 10 \/ (m = 10 /\ d <= 4)) ->
  Time_ymd (SetTime_jdn y m d) = (y, m, d).
Proof.
  intros Hy Hv Hc. pose proof Hv as [Hm [Hd _]].
  rewrite SetTime_jdn_before by lia.
  rewrite Time_ymd_before by (apply jdn_of_julian_range; lia).
  apply julian_round_trip_exact; [lia | exact Hv].
Qed.

(** X13.  Outside the ten days 1582-10-05 .. 1582-10-14, every valid
    Gregorian date of the years 1 to 3000 comes back unchanged from its
    day number: [Time.Time()] inverts the two formulas of [SetTime]. *)
Theorem gregorian_round_trip (y m d : Z) :
  1 <= y <= 3000 -> valid_gregorian y m d ->
  ~ (y = 1582 /\ m = 10 /\ 5 <= d <= 14) ->
  Time_ymd (SetTime_jdn y m d) = (y, m, d).
Proof.
  intros Hy Hv Hten.
  apply valid_gregorian_day in Hv. pose proof Hv as [Hm [Hd _]].
  assert (Hcase : (1582 <= y /\ (y = 1582 -> 10 < m \/ (m = 10 /\ 14 < d)))
                  \/ (y <= 1582
                      /\ (y = 1582 -> m < 10 \/ (m = 10 /\ d <= 4)))) by lia.
  destruct Hcase as [[Hy1 Hc] | [Hy1 Hc]].
  - rewrite SetTime_jdn_after by lia.
    rewrite Time_ymd_after by (apply jdn_of_gregorian_range; lia).
    apply gregorian_round_trip_exact; [lia | exact Hv].
  - apply julian_round_trip; try lia.
    apply gregorian_day_julian. exact Hv.
Qed.

Lemma gregorian_round_trip_witness :
  Time_ymd (SetTime_jdn 2016 3 20) = (2016, 3, 20).
Proof.
  apply gregorian_round_trip.
  - lia.
  - unfold valid_gregorian.
    replace (gregorian_days 2016 3) with 31 by reflexivity. lia.
  - lia.
Defined.

End GregorianCycle.

(* ================================================================== *)
(** ** The host calendar *)
(* ================================================================== *)

Module HostCalendar.

Import GoInt GoIntFacts ptime Vocabulary.

Lemma isLeap_spec (y : Z) :
  gotime.isLeap y = true
  <-> (y mod 4 = 0 /\ (y mod 100 <> 0 \/ y mod 400 = 0)).
Proof.
  unfold gotime.isLeap.
  destruct (Z.eqb_spec (y mod 4) 0); destruct (Z.eqb_spec (y mod 100) 0);
    destruct (Z.eqb_spec (y mod 400) 0); cbn; split; intros; try lia;
    try discriminate; try reflexivity.
Qed.

(** The year of the 400-year era and the day of that year, counted from
    March 1. *)
Lemma yoe_range (doe : Z) :
  0 <= doe <= 146096 ->
  let yoe := (doe - doe / 1460 + doe / 36524 - doe / 146096) / 365 in
  let doy := doe - (365 * yoe + yoe / 4 - yoe / 100) in
  0 <= yoe <= 399 /\ 0 <= doy <= 365
  /\ (doy = 365 -> (yoe + 1) mod 4 = 0 /\ ((yoe + 1) mod 100 <> 0 \/ yoe = 399)).
Proof.
  intros H. cbv zeta.
  Z.div_mod_to_equations.
  lia.
Qed.

(** The month and the day of a year counted from March 1. *)
Lemma month_day (doy : Z) :
  0 <= doy <= 365 ->
  let mp := (5 * doy + 2) / 153 in
  let d := doy - (153 * mp + 2) / 5 + 1 in
  0 <= mp <= 11 /\ 1 <= d <= 31
  /\ (mp = 1 \/ mp = 3 \/ mp = 6 \/ mp = 8 -> d <= 30)
  /\ (mp = 11 -> d <= 29 /\ (d = 29 -> doy = 365))
  /\ doy = (153 * mp + 2) / 5 + d - 1.
Proof.
  intros H. cbv zeta. Z.div_mod_to_equations. lia.
Qed.

(** Tests on numerals are evaluated where they stand. *)
Ltac closed_tests :=
  repeat match goal with
    | |- context [Z.ltb ?a ?b] =>
        let v := eval vm_compute in (Z.ltb a b) in
        lazymatch v with true => idtac | false => idtac end;
        change (Z.ltb a b) with v; cbv iota
    | |- context [Z.leb ?a ?b] =>
        let v := eval vm_compute in (Z.leb a b) in
        lazymatch v with true => idtac | false => idtac end;
        change (Z.leb a b) with v; cbv iota
    | |- context [Z.add (Zpos ?a) (Zpos ?b)] =>
        let v := eval vm_compute in (Z.add (Zpos a) (Zpos b)) in
        change (Z.add (Zpos a) (Zpos b)) with v
    | |- context [Z.sub (Zpos ?a) (Zpos ?b)] =>
        let v := eval vm_compute in (Z.sub (Zpos a) (Zpos b)) in
        change (Z.sub (Zpos a) (Zpos b)) with v
    | |- context [Z.add Z0 (Zpos ?b)] =>
        change (Z.add Z0 (Zpos b)) with (Zpos b)
    end.

(** [civil_from_days] returns a day of the Gregorian calendar, and
    [days_from_civil] counts it back. *)
Lemma civil_from_days_inverse (z : Z) :
  let '(y, m, d) := gotime.civil_from_days z in
  gregorian_day y m d /\ gotime.days_from_civil y m d = z.
Proof.
  unfold gotime.civil_from_days. cbv zeta.
  set (z' := z + 719468).
  set (era := z' / 146097).
  set (doe := z' - era * 146097).
  assert (Hdoe : 0 <= doe <= 146096)
    by (subst doe era; Z.div_mod_to_equations; lia).
  pose proof (yoe_range doe Hdoe) as Hy. cbv zeta in Hy.
  set (yoe := (doe - doe / 1460 + doe / 36524 - doe / 146096) / 365) in *.
  set (doy := doe - (365 * yoe + yoe / 4 - yoe / 100)) in *.
  destruct Hy as [Hyoe [Hdoy Hleap]].
  pose proof (month_day doy Hdoy) as Hm. cbv zeta in Hm.
  set (mp := (5 * doy + 2) / 153) in *.
  set (d := doy - (153 * mp + 2) / 5 + 1) in *.
  destruct Hm as [Hmp [Hd [H30 [Hfeb Hdoy']]]].
  assert (Hz : z = 146097 * era + 365 * yoe + yoe / 4 - yoe / 100
                   + (153 * mp + 2) / 5 + d - 1 - 719468).
  { subst doy doe z'. lia. }
  clearbody d mp. clear Hdoy'. clearbody doy yoe. clearbody era. clear doe Hdoe z'.
  subst z.
  assert (Hc : mp = 0 \/ mp = 1 \/ mp = 2 \/ mp = 3 \/ mp = 4 \/ mp = 5
               \/ mp = 6 \/ mp = 7 \/ mp = 8 \/ mp = 9 \/ mp = 10 \/ mp = 11)
    by lia.
  unfold gregorian_day, gotime.days_from_civil.
  repeat (destruct Hc as [-> | Hc]; [closed_tests |]).
  all: try (subst mp; closed_tests).
  all: match goal with
       | |- context [nth ?n ?l ?d] =>
           let v := eval vm_compute in (nth n l d) in
           change (nth n l d) with v
       end.
  all: match goal with
       | |- context [gotime.isLeap ?y] =>
           pose proof (isLeap_spec y) as Hl;
           destruct (gotime.isLeap y)
       end.
  all: cbn [andb].
  all: Z.div_mod_to_equations.
  all: lia.
Qed.

(** The host's day count and the Gregorian day number of the formulas
    differ by 2440588, the Julian Day Number of 1970-01-01. *)
Lemma days_from_civil_jdn (y m d : Z) :
  1 <= m <= 12 ->
  gotime.days_from_civil y m d + 2440588
  = jdn_of_gregorian (y + 4800 + march_shift m) (m - 2 - 12 * march_shift m) d.
Proof.
  intros Hm.
  assert (Hc : m = 1 \/ m = 2 \/ m = 3 \/ m = 4 \/ m = 5 \/ m = 6 \/ m = 7
               \/ m = 8 \/ m = 9 \/ m = 10 \/ m = 11 \/ m = 12) by lia.
  unfold gotime.days_from_civil, jdn_of_gregorian, march_shift.
  repeat (destruct Hc as [-> | Hc]; [closed_tests |]).
  all: try (subst m; closed_tests).
  all: match goal with
       | |- context [nth ?n ?l ?d] =>
           let v := eval vm_compute in (nth n l d) in
           change (nth n l d) with v
       end.
  all: match goal with
       | |- context [gotime.isLeap ?y] =>
           pose proof (isLeap_spec y) as Hl;
           destruct (gotime.isLeap y)
       end.
  all: cbn [andb].
  all: Z.div_mod_to_equations.
  all: lia.
Qed.

Lemma days_from_civil_shift (Y M D n : Z) :
  gotime.days_from_civil Y M (D + n) = gotime.days_from_civil Y M D + n.
Proof. unfold gotime.days_from_civil. lia. Qed.

Lemma host_clock (g : gotime.Time) :
  0 <= gotime.Hour g <= 23 /\ 0 <= gotime.Minute g <= 59
  /\ 0 <= gotime.Second g <= 59.
Proof.
  unfold gotime.Hour, gotime.Minute, gotime.Second.
  Z.div_mod_to_equations. lia.
Qed.

(** [time.Date] on fields in range carries nothing over. *)
Lemma gotime_Date_clock (Y M D h mi s ns : Z) (l : gotime.Location) :
  1 <= M <= 12 -> 0 <= h <= 23 -> 0 <= mi <= 59 -> 0 <= s <= 59 ->
  0 <= ns <= 999999999 ->
  gotime.Date Y M D h mi s ns (Some l)
  = Ok (gotime.mkTime
          (gotime.days_from_civil Y M D * 86400 + h * 3600 + mi * 60 + s
           - gotime.zone_offset l) ns l).
Proof.
  intros HM Hh Hmi Hs Hns. unfold gotime.Date, gotime.norm.
  replace ((M - 1) / 12) with 0 by (Z.div_mod_to_equations; lia).
  replace ((M - 1) mod 12 + 1) with M by (Z.div_mod_to_equations; lia).
  rewrite (Z.div_small ns), (Z.mod_small ns) by lia. rewrite !Z.add_0_r.
  rewrite (Z.div_small s), (Z.mod_small s) by lia. rewrite !Z.add_0_r.
  rewrite (Z.div_small mi), (Z.mod_small mi) by lia. rewrite !Z.add_0_r.
  rewrite (Z.div_small h), (Z.mod_small h) by lia. rewrite !Z.add_0_r.
  reflexivity.
Qed.

(** [time.Date] on the date and clock of an instant gives the instant. *)
Lemma gotime_Date_fields (g : gotime.Time) (Y M D : Z) :
  0 <= gotime.nanos g < 1000000000 ->
  1 <= M <= 12 ->
  gotime.days_from_civil Y M D = gotime.local_day g ->
  gotime.Date Y M D (gotime.Hour g) (gotime.Minute g) (gotime.Second g)
              (gotime.Nanosecond g) (Some (gotime.Location_of g))
  = Ok g.
Proof.
  intros Hn Hm Hd. destruct g as [u n l].
  unfold gotime.Date, gotime.norm, gotime.Hour, gotime.Minute, gotime.Second,
    gotime.Nanosecond, gotime.Location_of, gotime.local_day in *.
  unfold gotime.local_sec in *. cbn [gotime.unix_sec gotime.nanos gotime.loc] in *.
  set (s := u + gotime.zone_offset l) in *.
  replace ((M - 1) / 12) with 0 by (Z.div_mod_to_equations; lia).
  replace ((M - 1) mod 12 + 1) with M by (Z.div_mod_to_equations; lia).
  replace (n / 1000000000) with 0 by (Z.div_mod_to_equations; lia).
  replace (n mod 1000000000) with n by (Z.div_mod_to_equations; lia).
  replace ((s mod 60 + 0) / 60) with 0 by (Z.div_mod_to_equations; lia).
  replace ((s mod 60 + 0) mod 60) with (s mod 60) by (Z.div_mod_to_equations; lia).
  replace ((s mod 3600 / 60 + 0) / 60) with 0 by (Z.div_mod_to_equations; lia).
  replace ((s mod 3600 / 60 + 0) mod 60) with (s mod 3600 / 60)
    by (Z.div_mod_to_equations; lia).
  replace ((s mod 86400 / 3600 + 0) / 24) with 0 by (Z.div_mod_to_equations; lia).
  replace ((s mod 86400 / 3600 + 0) mod 24) with (s mod 86400 / 3600)
    by (Z.div_mod_to_equations; lia).
  replace (Y + 0) with Y by lia. replace (D + 0) with D by lia.
  rewrite Hd. f_equal. f_equal. subst s.
  Z.div_mod_to_equations. lia.
Qed.

(** The host's [AddDate] by days moves the instant by whole days. *)
Lemma gotime_AddDate_days (g : gotime.Time) (n : Z) :
  0 <= gotime.nanos g < 1000000000 ->
  gotime.AddDate g 0 0 n
  = Ok (gotime.mkTime (gotime.unix_sec g + 86400 * n) (gotime.nanos g)
                      (gotime.loc g)).
Proof.
  intros Hn. unfold gotime.AddDate, gotime.YMD.
  pose proof (civil_from_days_inverse (gotime.local_day g)) as Hi.
  destruct (gotime.civil_from_days (gotime.local_day g)) as [[Y M] D].
  destruct Hi as [[Hm _] Hdc].
  pose proof (host_clock g) as [Hh [Hmi Hs]].
  rewrite !Z.add_0_r.
  rewrite gotime_Date_clock by (unfold gotime.Nanosecond; lia).
  rewrite days_from_civil_shift, Hdc.
  unfold gotime.Nanosecond. f_equal. f_equal.
  unfold gotime.Hour, gotime.Minute, gotime.Second, gotime.local_day.
  unfold gotime.local_sec.
  Z.div_mod_to_equations. lia.
Qed.

Lemma day_number_year (y m d : Z) :
  1 <= m <= 12 -> 1 <= d <= 31 ->
  2299160 < gotime.days_from_civil y m d + 2440588 <= 2817152 ->
  after_cutover y m d.
Proof.
  intros Hm Hd. rewrite (days_from_civil_jdn y m d Hm).
  unfold after_cutover, jdn_of_gregorian, march_shift.
  destruct (Z.leb_spec m 2); intros Hj; Z.div_mod_to_equations; lia.
Qed.

Lemma day_number_range (y m d : Z) :
  1 <= m <= 12 -> 1 <= d <= 31 -> after_cutover y m d ->
  2299160 < gotime.days_from_civil y m d + 2440588 <= 2817152.
Proof.
  intros Hm Hd [Hy Hc]. rewrite (days_from_civil_jdn y m d Hm).
  unfold jdn_of_gregorian, march_shift.
  destruct (Z.leb_spec m 2); Z.div_mod_to_equations; lia.
Qed.

Lemma host_range_day (g : gotime.Time) :
  0 <= gotime.nanos g < 1000000000 ->
  2299160 < gotime.local_day g + 2440588 <= 2817152 ->
  host_range g.
Proof.
  intros Hn Hd. split; [exact Hn |]. unfold gotime.YMD.
  pose proof (civil_from_days_inverse (gotime.local_day g)) as Hi.
  destruct (gotime.civil_from_days (gotime.local_day g)) as [[Y M] D].
  destruct Hi as [[Hm [Hd31 _]] Hdc].
  apply day_number_year; [exact Hm | exact Hd31 | lia].
Qed.

End HostCalendar.

(* ================================================================== *)
(** ** Moments and host instants *)
(* ================================================================== *)

Module Instants.

Import GoInt GoIntFacts ptime Vocabulary Invariants PersianCycle.
Import PersianInverse GregorianCycle ClockFacts HostCalendar.

(** After the cutover the formula of [SetTime] counts the days as the
    host does. *)
Lemma SetTime_jdn_host (y m d : Z) :
  1 <= m <= 12 -> 1 <= d <= 31 -> after_cutover y m d ->
  SetTime_jdn y m d = gotime.days_from_civil y m d + 2440588.
Proof.
  intros Hm Hd [Hy Hc].
  rewrite SetTime_jdn_after by assumption.
  symmetry. apply days_from_civil_jdn. exact Hm.
Qed.

(** ... and the inversion of [Time.Time()] is the host's. *)
Lemma Time_ymd_host (jdn : Z) :
  2299160 < jdn <= 2817152 ->
  Time_ymd jdn = gotime.civil_from_days (jdn - 2440588).
Proof.
  intros H.
  pose proof (civil_from_days_inverse (jdn - 2440588)) as Hi.
  destruct (gotime.civil_from_days (jdn - 2440588)) as [[Y M] D].
  destruct Hi as [Hv Hd]. pose proof Hv as [Hm [Hd31 _]].
  assert (Hr : after_cutover Y M D)
    by (apply day_number_year; [exact Hm | exact Hd31 | lia]).
  rewrite Time_ymd_after by lia.
  replace jdn with (gotime.days_from_civil Y M D + 2440588) by lia.
  rewrite (days_from_civil_jdn Y M D Hm).
  apply gregorian_round_trip_exact; [apply Hr | exact Hv].
Qed.

(** X16.  From 1582-10-15 to the year 3000 the two Gregorian formulas are
    the host's calendar: the day number [SetTime] computes for a host
    date is the host's day count plus 2440588 (the Julian Day Number of
    1970-01-01), and the date [Time.Time()] computes from a day number is
    the host's civil date of that day. *)
Theorem host_calendar_agreement (y m d jdn : Z) :
  valid_gregorian y m d -> after_cutover y m d ->
  2299160 < jdn <= 2817152 ->
  SetTime_jdn y m d = gotime.days_from_civil y m d + 2440588
  /\ 2299160 < SetTime_jdn y m d <= 2817152
  /\ Time_ymd jdn = gotime.civil_from_days (jdn - 2440588)
  /\ (let '(y', m', d') := Time_ymd jdn in
      valid_gregorian y' m' d' /\ after_cutover y' m' d'
      /\ SetTime_jdn y' m' d' = jdn).
Proof.
  intros Hv Hr Hj.
  apply valid_gregorian_day in Hv. destruct Hv as [Hm [Hd _]].
  pose proof (SetTime_jdn_host y m d Hm Hd Hr) as Hs.
  split; [exact Hs |].
  split; [rewrite Hs; apply day_number_range; assumption |].
  pose proof (Time_ymd_host jdn Hj) as HT.
  split; [exact HT |]. rewrite HT.
  pose proof (civil_from_days_inverse (jdn - 2440588)) as Hi.
  destruct (gotime.civil_from_days (jdn - 2440588)) as [[Y M] D].
  destruct Hi as [Hg Hdc]. pose proof Hg as [HM [HD _]].
  assert (Hr' : after_cutover Y M D)
    by (apply day_number_year; [exact HM | exact HD | lia]).
  split; [apply gregorian_day_valid; exact Hg |].
  split; [exact Hr' |].
  rewrite (SetTime_jdn_host Y M D HM HD Hr'). lia.
Qed.

Lemma host_calendar_agreement_witness :
  SetTime_jdn 2016 3 20 = gotime.days_from_civil 2016 3 20 + 2440588
  /\ Time_ymd 2457468 = gotime.civil_from_days (2457468 - 2440588).
Proof.
  assert (Hv : valid_gregorian 2016 3 20).
  { unfold valid_gregorian. change (gregorian_days 2016 3) with 31. lia. }
  assert (Hr : after_cutover 2016 3 20) by (unfold after_cutover; lia).
  assert (Hj : 2299160 < 2457468 <= 2817152) by lia.
  destruct (host_calendar_agreement 2016 3 20 2457468 Hv Hr Hj)
    as [H1 [_ [H3 _]]].
  split; [exact H1 | exact H3].
Defined.

Lemma SetTime_clock (pt : Time) (g : gotime.Time) :
  hour (SetTime pt g) = gotime.Hour g /\ min (SetTime pt g) = gotime.Minute g
  /\ sec (SetTime pt g) = gotime.Second g
  /\ nsec (SetTime pt g) = gotime.nanos g
  /\ loc (SetTime pt g) = Some (gotime.loc g).
Proof.
  unfold SetTime. destruct (gotime.YMD g) as [[gy gm] gd].
  destruct (SetTime_ymd _) as [[y m] d]. repeat split.
Qed.

(** What [SetTime] makes of a host instant of the range goes back to it. *)
Lemma SetTime_exports (pt : Time) (g : gotime.Time) :
  host_range g ->
  ToTime (SetTime pt g) = Ok g
  /\ weekday_consistent (SetTime pt g)
  /\ convertible (SetTime pt g)
  /\ day_number (SetTime pt g) = gotime.local_day g + 2440588.
Proof.
  intros [Hn Hr]. unfold gotime.YMD in Hr.
  pose proof (civil_from_days_inverse (gotime.local_day g)) as Hi.
  unfold SetTime, gotime.YMD.
  destruct (gotime.civil_from_days (gotime.local_day g)) as [[Y M] D].
  destruct Hi as [Hv Hd]. pose proof Hv as [Hm [Hd31 _]].
  pose proof (day_number_range Y M D Hm Hd31 Hr) as Hj.
  rewrite (SetTime_jdn_host Y M D Hm Hd31 Hr).
  set (jdn := gotime.days_from_civil Y M D + 2440588) in *.
  destruct (locate_date jdn) as [y [m [d [Hs [Hy [Hpm [Hpd Hg]]]]]]].
  { replace (getJdn 475 1 1) with 2121446 by (vm_compute; reflexivity).
    replace (getJdn 3001 1 1) with 3044047 by (vm_compute; reflexivity).
    lia. }
  rewrite Hs.
  assert (HT : ToTime
                 (mkTime y m d (gotime.Hour g) (gotime.Minute g)
                    (gotime.Second g) (gotime.Nanosecond g)
                    (Some (gotime.Location_of g))
                    (getWeekday (gotime.Weekday g))) = Ok g).
  { unfold ToTime. cbn [year month day hour min sec nsec loc].
    rewrite Hg, (Time_ymd_host jdn Hj).
    pose proof (civil_from_days_inverse (jdn - 2440588)) as Hi.
    destruct (gotime.civil_from_days (jdn - 2440588)) as [[Y' M'] D'].
    destruct Hi as [[Hm' _] Hd'].
    apply gotime_Date_fields; [exact Hn | exact Hm' | lia]. }
  split; [exact HT |].
  split; [exists g; split; [exact HT | reflexivity] |].
  pose proof (host_clock g) as Hc.
  unfold convertible, day_number, valid_clock.
  cbn [year month day hour min sec nsec loc].
  rewrite Hg. unfold gotime.Nanosecond.
  split; [| subst jdn; lia].
  split; [eexists; reflexivity |]. repeat split; lia.
Qed.


(** What [Time.Time()] returns for a convertible moment. *)
Lemma ToTime_convertible (t : Time) (l : gotime.Location) :
  loc t = Some l -> convertible t ->
  exists g,
    ToTime t = Ok g /\ host_range g
    /\ gotime.unix_sec g
       = (day_number t - 2440588) * 86400 + hour t * 3600 + min t * 60
         + sec t - gotime.zone_offset l
    /\ gotime.nanos g = nsec t /\ gotime.loc g = l
    /\ gotime.local_day g = day_number t - 2440588
    /\ gotime.Hour g = hour t /\ gotime.Minute g = min t
    /\ gotime.Second g = sec t
    /\ forall pt,
         SetTime pt g
         = mkTime (year t) (month t) (day t) (hour t) (min t) (sec t)
                  (nsec t) (loc t) (getWeekday (gotime.Weekday g)).
Proof.
  destruct t as [y m d h mi s ns lo w].
  unfold convertible, day_number, valid_clock.
  cbn [year month day hour min sec nsec loc wday].
  intros -> [_ [[Hh [Hmi [Hs Hns]]] [Hy [Hm [Hd Hj]]]]].
  pose proof (persian_round_trip_from_475 y m d Hy Hm Hd) as Hp.
  set (jdn := getJdn y m d) in *.
  pose proof (Time_ymd_host jdn Hj) as HT.
  pose proof (civil_from_days_inverse (jdn - 2440588)) as Hi.
  destruct (gotime.civil_from_days (jdn - 2440588)) as [[Y M] D] eqn:E.
  destruct Hi as [Hv Hdc]. pose proof Hv as [HM [HD _]].
  assert (Hr : after_cutover Y M D)
    by (apply day_number_year; [exact HM | exact HD | lia]).
  set (g := gotime.mkTime
              (gotime.days_from_civil Y M D * 86400 + h * 3600 + mi * 60 + s
               - gotime.zone_offset l) ns l).
  assert (Hg : ToTime (mkTime y m d h mi s ns (Some l) w) = Ok g).
  { unfold ToTime. cbn [year month day hour min sec nsec loc].
    fold jdn. rewrite HT.
    apply gotime_Date_clock; assumption. }
  assert (Hld : gotime.local_day g = jdn - 2440588).
  { unfold gotime.local_day, gotime.local_sec, g.
    cbn [gotime.unix_sec gotime.loc]. rewrite Hdc.
    Z.div_mod_to_equations. lia. }
  assert (Hck : gotime.Hour g = h /\ gotime.Minute g = mi
                /\ gotime.Second g = s).
  { unfold gotime.Hour, gotime.Minute, gotime.Second, gotime.local_sec, g.
    cbn [gotime.unix_sec gotime.loc].
    set (dd := gotime.days_from_civil Y M D). clearbody dd.
    Z.div_mod_to_equations. lia. }
  destruct Hck as [EH [EM ES]].
  exists g. split; [exact Hg |].
  split; [split; [cbn; lia | unfold gotime.YMD; rewrite Hld, E; exact Hr] |].
  split; [cbn [gotime.unix_sec g]; rewrite Hdc; reflexivity |].
  split; [reflexivity |]. split; [reflexivity |]. split; [exact Hld |].
  split; [exact EH |]. split; [exact EM |]. split; [exact ES |].
  intros pt'. unfold SetTime, gotime.YMD. rewrite Hld, E.
  rewrite (SetTime_jdn_host Y M D HM HD Hr).
  replace (gotime.days_from_civil Y M D + 2440588) with jdn by lia.
  rewrite Hp, EH, EM, ES. reflexivity.
Qed.

(** A convertible moment with the weekday of its export is what [SetTime]
    makes of its export. *)
Lemma SetTime_of_export (pt t : Time) (g : gotime.Time) :
  convertible t -> weekday_consistent t -> ToTime t = Ok g ->
  SetTime pt g = t.
Proof.
  intros Hc [g' [Hg' Hw]] Hg. pose proof Hc as [[l Hl] _].
  destruct (ToTime_convertible t l Hl Hc)
    as [g0 [Hg0 [_ [_ [_ [_ [_ [_ [_ [_ HS]]]]]]]]]].
  assert (g0 = g) by congruence. subst g0.
  assert (g' = g) by congruence. subst g'.
  rewrite HS, <- Hw. destruct t; reflexivity.
Qed.




(** [AddDate] by days, on the instant. *)
Lemma AddDate_export (t : Time) (n : Z) :
  convertible t ->
  exists g,
    ToTime t = Ok g
    /\ AddDate t 0 0 n
       = Ok (FromTime (gotime.mkTime (gotime.unix_sec g + 86400 * n)
                                     (gotime.nanos g) (gotime.loc g))).
Proof.
  intros Hc. pose proof Hc as [[l Hl] _].
  destruct (ToTime_convertible t l Hl Hc) as [g [Hg [[Hn _] _]]].
  exists g. split; [exact Hg |].
  unfold AddDate. rewrite Hg. cbn [bind].
  rewrite (gotime_AddDate_days g n Hn). reflexivity.
Qed.

(** [AddDate] by days moves the day number and keeps the clock. *)
Lemma AddDate_shift (t : Time) (n : Z) :
  convertible t ->
  2299160 < day_number t + n <= 2817152 ->
  exists t',
    AddDate t 0 0 n = Ok t'
    /\ convertible t' /\ weekday_consistent t'
    /\ day_number t' = day_number t + n
    /\ hour t' = hour t /\ min t' = min t /\ sec t' = sec t
    /\ nsec t' = nsec t /\ loc t' = loc t
    /\ (weekday_consistent t -> wday t' = (wday t + n) mod 7).
Proof.
  intros Hc Hr. pose proof Hc as [[l Hl] _].
  destruct (ToTime_convertible t l Hl Hc)
    as [g [Hg [[Hn _] [Hu [Hns [Hlo [Hld [EH [EM [ES _]]]]]]]]]].
  destruct (AddDate_export t n Hc) as [g0 [Hg0 HA]].
  assert (g0 = g) by congruence. subst g0.
  set (g' := gotime.mkTime (gotime.unix_sec g + 86400 * n)
                           (gotime.nanos g) (gotime.loc g)) in *.
  assert (Hsec : gotime.local_sec g' = gotime.local_sec g + 86400 * n).
  { unfold gotime.local_sec, g'. cbn [gotime.unix_sec gotime.loc]. lia. }
  assert (Hld' : gotime.local_day g' = gotime.local_day g + n).
  { unfold gotime.local_day. rewrite Hsec. Z.div_mod_to_equations. lia. }
  assert (Hr' : host_range g').
  { apply host_range_day; [exact Hn | rewrite Hld', Hld; lia]. }
  destruct (SetTime_exports zero g' Hr') as [HT [Hw [Hc' Hdn]]].
  destruct (SetTime_clock zero g') as [CH [CM [CS [CN CL]]]].
  exists (FromTime g'). unfold FromTime.
  split; [exact HA |]. split; [exact Hc' |]. split; [exact Hw |].
  split; [rewrite Hdn, Hld', Hld; lia |].
  split; [rewrite CH, <- EH; unfold gotime.Hour; rewrite Hsec;
          Z.div_mod_to_equations; lia |].
  split; [rewrite CM, <- EM; unfold gotime.Minute; rewrite Hsec;
          Z.div_mod_to_equations; lia |].
  split; [rewrite CS, <- ES; unfold gotime.Second; rewrite Hsec;
          Z.div_mod_to_equations; lia |].
  split; [rewrite CN; exact Hns |].
  split; [rewrite CL, Hl; cbn [gotime.loc g']; congruence |].
  intros [g1 [Hg1 Hw1]].
  assert (g1 = g) by congruence. subst g1.
  rewrite SetTime_wday, Hld', Hw1.
  pose proof (Z.mod_pos_bound (gotime.local_day g + gotime.Thursday) 7 eq_refl) as Hb.
  rewrite getWeekday_shift by (unfold gotime.Weekday; lia).
  unfold gotime.Weekday, gotime.Thursday.
  Z.div_mod_to_equations. lia.
Qed.

(** ... and the opposite number of days brings the moment back. *)
Lemma AddDate_inverse (t : Time) (n : Z) :
  convertible t -> weekday_consistent t ->
  2299160 < day_number t + n <= 2817152 ->
  exists a,
    AddDate t 0 0 n = Ok a /\ AddDate a 0 0 (- n) = Ok t
    /\ day_number a = day_number t + n.
Proof.
  intros Hc Hw Hr.
  destruct (AddDate_export t n Hc) as [g [Hg HA]].
  destruct (AddDate_shift t n Hc Hr) as [a [Ha [Hca [_ [Hdn _]]]]].
  exists a. split; [exact Ha |]. split; [| exact Hdn].
  destruct (AddDate_export a (- n) Hca) as [g' [Hg' HA']].
  rewrite HA'. f_equal.
  assert (Ea : a = FromTime (gotime.mkTime (gotime.unix_sec g + 86400 * n)
                                           (gotime.nanos g) (gotime.loc g)))
    by congruence.
  assert (Hrg : host_range (gotime.mkTime (gotime.unix_sec g + 86400 * n)
                                          (gotime.nanos g) (gotime.loc g))).
  { pose proof Hc as [[l Hl] _].
    destruct (ToTime_convertible t l Hl Hc)
      as [g1 [Hg1 [[Hn _] [_ [_ [_ [Hld _]]]]]]].
    assert (g1 = g) by congruence. subst g1.
    apply host_range_day; [exact Hn |].
    unfold gotime.local_day, gotime.local_sec in *.
    cbn [gotime.unix_sec gotime.loc].
    revert Hld. Z.div_mod_to_equations. lia. }
  destruct (SetTime_exports zero _ Hrg) as [HT _].
  fold (FromTime (gotime.mkTime (gotime.unix_sec g + 86400 * n)
                                (gotime.nanos g) (gotime.loc g))) in HT.
  rewrite <- Ea in HT.
  assert (g' = gotime.mkTime (gotime.unix_sec g + 86400 * n)
                             (gotime.nanos g) (gotime.loc g)) by congruence.
  subst g'. cbn [gotime.unix_sec gotime.nanos gotime.loc].
  replace (gotime.mkTime (gotime.unix_sec g + 86400 * n + 86400 * - n)
                         (gotime.nanos g) (gotime.loc g)) with g
    by (destruct g; cbn [gotime.unix_sec gotime.nanos gotime.loc];
        f_equal; lia).
  apply SetTime_of_export; assumption.
Qed.



Lemma consistent_wday (t : Time) (l : gotime.Location) :
  loc t = Some l -> convertible t -> weekday_consistent t ->
  wday t = (day_number t - 2440588 + 5) mod 7.
Proof.
  intros Hl Hc [g1 [Hg1 Hw1]].
  destruct (ToTime_convertible t l Hl Hc)
    as [g [Hg [_ [_ [_ [_ [Hld _]]]]]]].
  assert (g1 = g) by congruence. subst g1.
  pose proof (Z.mod_pos_bound (gotime.local_day g + gotime.Thursday) 7 eq_refl) as Hb.
  rewrite Hw1, getWeekday_shift by (unfold gotime.Weekday; lia).
  unfold gotime.Weekday, gotime.Thursday. rewrite Hld.
  Z.div_mod_to_equations. lia.
Qed.


End Instants.

(* ================================================================== *)
(** ** Worked instances *)
(* ================================================================== *)

Module Instances.

Import GoInt GoIntFacts ptime Vocabulary Invariants PersianCycle Counters.
Import HostCalendar Instants.

Lemma noon_sound : sound noon.
Proof.
  split; [| split].
  - split; [simpl; lia |]. exists 31. split; [reflexivity | simpl; lia].
  - unfold valid_clock. simpl. lia.
  - exists (gotime.mkTime 1458462600 0 Iran).
    split; vm_compute; reflexivity.
Qed.

Lemma noon_instant_range : host_range noon_instant.
Proof.
  split; [cbn; lia |].
  change (gotime.YMD noon_instant) with (2016, 3, 20).
  unfold after_cutover. lia.
Qed.

Lemma noon_convertible : convertible noon.
Proof.
  destruct noon_sound as [_ [Hc _]].
  split; [exists Iran; reflexivity |]. split; [exact Hc |].
  change (day_number noon) with 2457468.
  change (jdn_month_days (year noon) (month noon)) with 31.
  cbn. lia.
Qed.

Lemma valid_date_round_trip_witness :
  SetTime_ymd (getJdn 1395 1 1) = (1395, 1, 1).
Proof.
  apply (valid_date_round_trip noon).
  - simpl. lia.
  - destruct noon_sound as [Hd _]. exact Hd.
  - intros _. reflexivity.
Defined.


Lemma date_setters_keep_invariants_witness :
  exists t', SetDay noon 40 = Ok t' /\ valid_date t' /\ weekday_consistent t'.
Proof.
  destruct (date_setters_keep_invariants noon 40 Iran Iran eq_refl)
    as [_ [_ [H _]]].
  apply H. simpl. lia.
Defined.

Lemma month_and_year_ends_witness :
  exists a b c d,
    FirstMonthDay noon = Ok a /\ LastMonthDay noon = Ok b
    /\ FirstYearDay noon = Ok c /\ LastYearDay noon = Ok d
    /\ RMonthDay b = Ok 0 /\ RYearDay d = Ok 0.
Proof.
  destruct (month_and_year_ends noon noon_sound)
    as [a [b [c [d [Ha [Hb [Hc [Hd [_ [_ [_ [_ [_ [_ [_ [_ [_ [Hrm
        [_ [_ [_ [_ [_ Hry]]]]]]]]]]]]]]]]]]]]]]].
  exists a, b, c, d. repeat split; assumption.
Defined.








End Instances.
